(** * PubSubToGCS_Compression: windowed batching and compressed sharded writes

    A shallow embedding of [PubSubToGCS_Compression.py] and of the library
    calls it relies on (Python's [datetime], [random], [gzip]; Apache Beam's
    [FixedWindows], [WithKeys], [GroupByKey], [GcsIO]).

    Representation choices.
    - A Python [int] is a [Z].
    - A Python [bytes] value is a [string] (a sequence of 8-bit characters).
    - A Python [str] is represented by its UTF-8 encoding, again a [string]:
      [bytes.decode("utf-8")] is a validity check and [str.encode()] is the
      identity on the representation.  The character U+000A is the byte 10.
    - Beam [Timestamp]s and [Duration]s are their [micros] field, a [Z].
    - Effects (the random source, the wall clock, the objects stored in GCS
      and the order in which pipeline steps touch an element) are threaded
      through a state-and-exception monad over a [World].
    - A file object open for writing is the bytes it has received.  Code
      that writes to one yields these bytes together with its outcome: they
      are there, and are stored when the object is closed, also when the
      code raises. *)

From Stdlib Require Import ZArith Ascii String List Lia.
From stdpp Require Import base decidable option list gmap strings pretty.

Local Open Scope string_scope.
Local Open Scope Z_scope.

(** ** Bytes and text *)

Definition byte_val (c : ascii) : Z := Z.of_N (N_of_ascii c).
Definition chr (n : Z) : ascii := ascii_of_N (Z.to_N (n mod 256)).

(** The line feed, ["\n"]. *)
Definition LF : ascii := chr 10.
Definition NL : string := String LF EmptyString.

Fixpoint has_newline (s : string) : bool :=
  match s with
  | EmptyString => false
  | String c r => Ascii.eqb c LF || has_newline r
  end.

(** [b"".join(parts)] *)
Fixpoint join (parts : list string) : string :=
  match parts with
  | [] => ""
  | p :: ps => p +:+ join ps
  end.

(** [bytes.decode("utf-8")] accepts exactly the well-formed byte sequences
    (Unicode 15, table 3-7); [continuation] is the range 80..BF. *)
Definition between (lo hi b : Z) : bool := (lo <=? b) && (b <=? hi).
Definition continuation (c : ascii) : bool := between 128 191 (byte_val c).

Fixpoint utf8_valid (s : string) : bool :=
  match s with
  | EmptyString => true
  | String c0 r0 =>
    let b0 := byte_val c0 in
    if b0 <? 128 then utf8_valid r0 else
    match r0 with
    | EmptyString => false
    | String c1 r1 =>
      let b1 := byte_val c1 in
      if between 194 223 b0 then continuation c1 && utf8_valid r1 else
      match r1 with
      | EmptyString => false
      | String c2 r2 =>
        if between 224 239 b0 then
          (if b0 =? 224 then between 160 191 b1
           else if b0 =? 237 then between 128 159 b1
           else continuation c1)
          && continuation c2 && utf8_valid r2
        else
        match r2 with
        | EmptyString => false
        | String c3 r3 =>
          if between 240 244 b0 then
            (if b0 =? 240 then between 144 191 b1
             else if b0 =? 244 then between 128 143 b1
             else continuation c1)
            && continuation c2 && continuation c3 && utf8_valid r3
          else false
        end
      end
    end
  end.

(** ** Exceptions *)

Inductive exception : Type :=
  | ValueError (msg : string)
  | OverflowError (msg : string)
  | UnicodeDecodeError
  | struct_error.

Definition result (A : Type) : Type := exception + A.

Definition bytes_decode (payload : string) : result string :=
  if utf8_valid payload then inr payload else inl UnicodeDecodeError.

Definition str_encode (s : string) : string := s.

(** ** Python's [datetime] *)

Module datetime.

Definition _MAXORDINAL : Z := 3652059.
Definition _DI400Y : Z := 146097.
Definition _DI100Y : Z := 36524.
Definition _DI4Y : Z := 1461.

Definition _DAYS_IN_MONTH : list Z :=
  [-1; 31; 28; 31; 30; 31; 30; 31; 31; 30; 31; 30; 31].
Definition _DAYS_BEFORE_MONTH : list Z :=
  [-1; 0; 31; 59; 90; 120; 151; 181; 212; 243; 273; 304; 334].

Definition index (l : list Z) (i : Z) : Z := nth (Z.to_nat i) l 0.
Definition b2z (b : bool) : Z := if b then 1 else 0.

Definition _is_leap (year : Z) : bool :=
  (year mod 4 =? 0) && (negb (year mod 100 =? 0) || (year mod 400 =? 0)).

Definition _days_before_year (year : Z) : Z :=
  let y := year - 1 in y * 365 + y / 4 - y / 100 + y / 400.

Definition _days_before_month (year month : Z) : Z :=
  index _DAYS_BEFORE_MONTH month + b2z ((month >? 2) && _is_leap year).

Definition _ymd2ord (year month day : Z) : Z :=
  _days_before_year year + _days_before_month year month + day.

(** ordinal -> (year, month, day), considering 01-Jan-0001 as day 1 *)
Definition _ord2ymd (n : Z) : Z * Z * Z :=
  let n := n - 1 in
  let n400 := n / _DI400Y in
  let n := n mod _DI400Y in
  let year := n400 * 400 + 1 in
  let n100 := n / _DI100Y in
  let n := n mod _DI100Y in
  let n4 := n / _DI4Y in
  let n := n mod _DI4Y in
  let n1 := n / 365 in
  let n := n mod 365 in
  let year := year + n100 * 100 + n4 * 4 + n1 in
  if (n1 =? 4) || (n100 =? 4) then (year - 1, 12, 31) else
  let leapyear := (n1 =? 3) && (negb (n4 =? 24) || (n100 =? 3)) in
  let month := Z.shiftr (n + 50) 5 in
  let preceding :=
    index _DAYS_BEFORE_MONTH month + b2z ((month >? 2) && leapyear) in
  if preceding >? n then
    let month := month - 1 in
    let preceding :=
      preceding - (index _DAYS_IN_MONTH month
                   + b2z ((month =? 2) && leapyear)) in
    (year, month, n - preceding + 1)
  else (year, month, n - preceding + 1).

Record t : Type := mk {
  year : Z; month : Z; day : Z;
  hour : Z; minute : Z; second : Z; microsecond : Z
}.

(** [datetime(1970, 1, 1).toordinal()] *)
Definition epoch_ordinal : Z := 719163.

(** [epoch + timedelta(microseconds=micros)]: the timedelta is normalised
    to days, seconds and microseconds by floor division, and the sum is
    out of range unless [0 < days <= _MAXORDINAL]. *)
Definition epoch_plus_microseconds (micros : Z) : result t :=
  let days := micros / 86400000000 in
  let rem := micros mod 86400000000 in
  let seconds := rem / 1000000 in
  let us := rem mod 1000000 in
  let ordinal := epoch_ordinal + days in
  let hour := seconds / 3600 in
  let rem := seconds mod 3600 in
  let minute := rem / 60 in
  let second := rem mod 60 in
  if (0 <? ordinal) && (ordinal <=? _MAXORDINAL) then
    let '(y, m, d) := _ord2ymd ordinal in
    inr (mk y m d hour minute second us)
  else inl (OverflowError "date value out of range").

Definition digit (d : Z) : ascii := chr (48 + d).
Definition pad2 (n : Z) : string :=
  String (digit (n / 10)) (String (digit (n mod 10)) "").
Definition pad4 (n : Z) : string :=
  String (digit (n / 1000)) (String (digit (n / 100 mod 10)) (pad2 (n mod 100))).

(** [strftime("%Y/%m/%d")] and [strftime("%H:%M")], zero padded as the
    library documents them ([%Y] gives 0001 ... 9999; the C library of some
    platforms leaves out the zeros of years before 1000). *)
Definition strftime_Ymd (dt : t) : string :=
  pad4 (year dt) +:+ "/" +:+ pad2 (month dt) +:+ "/" +:+ pad2 (day dt).
Definition strftime_HM (dt : t) : string :=
  pad2 (hour dt) +:+ ":" +:+ pad2 (minute dt).

End datetime.

(** ** Python's [random]

    [Random._randbelow(n)] is the only primitive: the generator state is
    abstract and the draw is taken as an interface.  Its documented contract
    (a value in [[0, n)] for positive [n]) is the class [RandomSourceOk]. *)

Class RandomSource (R : Type) : Type :=
  _randbelow : Z -> R -> Z * R.

Class RandomSourceOk (R : Type) {RS : RandomSource R} : Prop :=
  _randbelow_range : forall (n : Z) (g : R), 0 < n -> 0 <= (_randbelow n g).1 < n.

(** ** The compressors of [zlib], [bz2] and the deflate stream inside [gzip]

    The compressed formats themselves are those of the C libraries; they are
    an interface here, with the round-trip law each library guarantees. *)

Class Compression : Type := {
  zlib_compress : string -> string;
  zlib_decompress : string -> option string;
  bz2_compress : string -> string;
  bz2_decompress : string -> option string;
  deflate_raw : string -> string;
  inflate_raw : string -> option string
}.

Class CompressionOk {C : Compression} : Prop := {
  zlib_roundtrip : forall data, zlib_decompress (zlib_compress data) = Some data;
  bz2_roundtrip : forall data, bz2_decompress (bz2_compress data) = Some data;
  deflate_roundtrip : forall data, inflate_raw (deflate_raw data) = Some data
}.

(** ** Python's [gzip.GzipFile] in mode ["wb"] over a file object without a
    name: a ten-byte header carrying the time of writing (no [mtime] argument
    is given, so [time.time()] is used), the raw deflate stream of everything
    written, and the CRC-32 and length of the uncompressed data. *)

Module gzip.

(** [zlib.crc32], bit by bit (polynomial EDB88320, reflected). *)
Definition crc32_shift (crc : Z) : Z :=
  if Z.testbit crc 0 then Z.lxor (Z.shiftr crc 1) 3988292384
  else Z.shiftr crc 1.

Definition crc32_update (crc : Z) (c : ascii) : Z :=
  Nat.iter 8 crc32_shift (Z.lxor crc (byte_val c)).

Fixpoint crc32_from (crc : Z) (data : string) : Z :=
  match data with
  | EmptyString => crc
  | String c r => crc32_from (crc32_update crc c) r
  end.

(** [zlib.crc32(data, value)]: the running checksum [value] extended by
    [data]; [zlib.crc32(data)] starts from 0. *)
Definition crc32_value (data : string) (value : Z) : Z :=
  Z.lxor (crc32_from (Z.lxor value 4294967295) data) 4294967295.

Definition crc32 (data : string) : Z := crc32_value data 0.

Section with_compression.
Context {C : Compression}.

(** The four bytes that [struct.pack("<L", v)] returns for
    [0 <= v < 2**32]: [v], little-endian. *)
Definition pack_L (v : Z) : string :=
  String (chr v) (String (chr (Z.shiftr v 8))
    (String (chr (Z.shiftr v 16)) (String (chr (Z.shiftr v 24)) ""))).

(** [write32u(output, value)] is [output.write(struct.pack("<L", value))]:
    the bytes written, or the [struct.error] that [struct.pack] raises for a
    value outside [0, 2**32), in which case nothing is written. *)
Definition write32u (value : Z) : result string :=
  if (0 <=? value) && (value <? 4294967296) then inr (pack_L value)
  else inl struct_error.

(** The magic number, the compression method and the flags of a member
    without a file name: what [_write_gzip_header] writes before the
    modification time. *)
Definition preamble : string :=
  String (chr 31) (String (chr 139) (String (chr 8) (String (chr 0) ""))).

(** The header of a member (RFC 1952) with modification time [mtime]. *)
Definition header (mtime : Z) : string :=
  String (chr 31) (String (chr 139) (String (chr 8) (String (chr 0)
    (pack_L mtime +:+ String (chr 2) (String (chr 255) ""))))).

(** [_write_gzip_header]: what the file object has received when the method
    returns, or when [write32u] raises in the middle of it. *)
Definition _write_gzip_header (mtime : Z) : string * result unit :=
  match write32u mtime with
  | inl e => (preamble, inl e)
  | inr stamp =>
    (preamble +:+ stamp +:+ String (chr 2) (String (chr 255) ""), inr tt)
  end.

Record GzipFile : Type := mkGzipFile {
  head : string;      (* what [_write_gzip_header] sent to the file object *)
  written : string;   (* the data given to the compressor so far *)
  size : Z;
  crc : Z
}.

(** [GzipFile(fileobj=f, mode="wb")]: [__init__] writes the header at once,
    with [mtime = time.time()], here [now]; the first component is what the
    file object has received, also when the constructor raises. *)
Definition open (now : Z) : string * result GzipFile :=
  match _write_gzip_header now with
  | (sent, inl e) => (sent, inl e)
  | (sent, inr _) => (sent, inr (mkGzipFile sent "" 0 (crc32 "")))
  end.

Definition write (gz : GzipFile) (data : string) : GzipFile :=
  let length := Z.of_nat (String.length data) in
  if length >? 0 then
    mkGzipFile (head gz) (written gz +:+ data) (size gz + length)
      (crc32_value data (crc gz))
  else gz.

(** [close]: the compressor is flushed, then [write32u(fileobj, self.crc)]
    and [write32u(fileobj, self.size & 0xffffffff)]; the first component is
    what the file object has received. *)
Definition close (gz : GzipFile) : string * result unit :=
  let flushed := head gz +:+ deflate_raw (written gz) in
  match write32u (crc gz) with
  | inl e => (flushed, inl e)
  | inr checksum =>
    match write32u (Z.land (size gz) 4294967295) with
    | inl e => (flushed +:+ checksum, inl e)
    | inr length => (flushed +:+ checksum +:+ length, inr tt)
    end
  end.

(** One gzip member (RFC 1952) holding [data], with modification time
    [mtime]. *)
Definition member (mtime : Z) (data : string) : string :=
  header mtime +:+ deflate_raw data
  +:+ pack_L (crc32 data)
  +:+ pack_L (Z.land (Z.of_nat (String.length data)) 4294967295).

Fixpoint drop (n : nat) (s : string) : string :=
  match n, s with
  | O, _ => s
  | S n, String _ r => drop n r
  | S _, EmptyString => EmptyString
  end.

Fixpoint take (n : nat) (s : string) : string :=
  match n, s with
  | S n, String c r => String c (take n r)
  | _, _ => EmptyString
  end.

(** [gzip.decompress] for a single member without optional header fields:
    magic, method and flags are checked, the modification time is skipped,
    and the trailer is compared with the inflated data. *)
Definition decompress (blob : string) : option string :=
  match blob with
  | String m1 (String m2 (String cm (String flg rest))) =>
    if (byte_val m1 =? 31) && (byte_val m2 =? 139) && (byte_val cm =? 8)
       && (byte_val flg =? 0) && (14 <=? Z.of_nat (String.length rest)) then
      let body := drop 6 rest in
      let n := (String.length body - 8)%nat in
      match inflate_raw (take n body) with
      | Some data =>
        if String.eqb (drop n body)
             (pack_L (crc32 data)
              +:+ pack_L (Z.land (Z.of_nat (String.length data)) 4294967295))
        then Some data else None
      | None => None
      end
    else None
  | _ => None
  end.

End with_compression.
End gzip.

(** ** Apache Beam: windows *)

Module window.

Record IntervalWindow : Type := mkIntervalWindow {
  start : Z;   (* [Timestamp], in microseconds *)
  end_ : Z
}.

Record FixedWindows : Type := mkFixedWindows {
  size : Z;    (* [Duration], in microseconds *)
  offset : Z
}.

(** [FixedWindows.__init__(size, offset=0)], [size] in seconds. *)
Definition FixedWindows_init (size_sec : Z) : result FixedWindows :=
  if size_sec <=? 0 then
    inl (ValueError "The size parameter must be strictly positive.")
  else
    let size := size_sec * 1000000 in
    inr (mkFixedWindows size (0 mod size)).

(** [FixedWindows.assign] *)
Definition assign (fn : FixedWindows) (timestamp : Z) : IntervalWindow :=
  let start := timestamp - (timestamp - offset fn) mod size fn in
  mkIntervalWindow start (start + size fn).

(** [Timestamp.to_utc_datetime] *)
Definition to_utc_datetime (micros : Z) : result datetime.t :=
  datetime.epoch_plus_microseconds micros.

End window.

Global Instance IntervalWindow_eq_dec : EqDecision window.IntervalWindow.
Proof. solve_decision. Defined.

(** An element of a windowed [PCollection]. *)
Record Windowed (A : Type) : Type := mkWindowed {
  value : A;
  timestamp : Z;
  in_window : window.IntervalWindow
}.
Arguments mkWindowed {A} _ _ _.
Arguments value {A} _.
Arguments timestamp {A} _.
Arguments in_window {A} _.

(** ** The world the pipeline runs in *)

Record GcsObject : Type := mkGcsObject {
  content : string;
  content_type : string
}.

Record World (R : Type) : Type := mkWorld {
  rng : R;                        (* state of the [random] module *)
  clock : Z;                      (* [int(time.time())] *)
  gcs : gmap string GcsObject;    (* the objects in Cloud Storage, by path *)
  log : list string               (* labels of the steps applied so far *)
}.
Arguments mkWorld {R} _ _ _ _.
Arguments rng {R} _.
Arguments clock {R} _.
Arguments gcs {R} _.
Arguments log {R} _.

Definition M (R A : Type) : Type := World R -> result A * World R.

Definition ret {R A} (a : A) : M R A := fun w => (inr a, w).

Definition bind {R A B} (m : M R A) (k : A -> M R B) : M R B :=
  fun w =>
    match m w with
    | (inr a, w') => k a w'
    | (inl e, w') => (inl e, w')
    end.

Definition lift {R A} (r : result A) : M R A := fun w => (r, w).

Notation "x <- m ;; k" := (bind m (fun x => k))
  (at level 100, m at next level, right associativity).

Fixpoint mapM {R A B} (f : A -> M R B) (l : list A) : M R (list B) :=
  match l with
  | [] => ret []
  | a :: l' => b <- f a ;; bs <- mapM f l' ;; ret (b :: bs)
  end.

(** Entering the step labelled [label] of the pipeline. *)
Definition step {R} (label : string) : M R unit :=
  fun w => (inr tt, mkWorld (rng w) (clock w) (gcs w) (log w ++ [label])).

(** [time.time()], truncated to seconds. *)
Definition time_time {R} : M R Z := fun w => (inr (clock w), w).

(** [random.randint(a, b)] is [randrange(a, b + 1)]. *)
Definition random_randrange {R} {RS : RandomSource R} (start stop : Z) : M R Z :=
  fun w =>
    let width := stop - start in
    if width >? 0 then
      let '(r, g) := _randbelow width (rng w) in
      (inr (start + r), mkWorld g (clock w) (gcs w) (log w))
    else (inl (ValueError "empty range for randrange()"), w).

Definition random_randint {R} {RS : RandomSource R} (a b : Z) : M R Z :=
  random_randrange a (b + 1).

(** Closing a [GcsIO().open(filename, "wb", mime_type)] writer that received
    [data]: the object at [filename] is created or replaced. *)
Definition gcs_create {R} (filename data mime_type : string) : M R unit :=
  fun w =>
    (inr tt,
     mkWorld (rng w) (clock w)
       (<[filename := mkGcsObject data mime_type]> (gcs w)) (log w)).

(** ** The pipeline of [PubSubToGCS_Compression.py] *)

Section pipeline.
Context {R : Type} {RS : RandomSource R} {C : Compression}.

(** *** [class GroupMessagesByFixedWindows(PTransform)] *)

Record GroupMessagesByFixedWindows : Type := mkGroupMessagesByFixedWindows {
  window_size : Z;
  num_shards : Z
}.

(** [__init__]: [int(window_size)] is the identity on integers. *)
Definition GroupMessagesByFixedWindows_init (window_size num_shards : Z)
  : GroupMessagesByFixedWindows :=
  mkGroupMessagesByFixedWindows window_size num_shards.

(** *** [class DecodeMessage(DoFn)] *)

Definition DecodeMessage_process (element : string) : result string :=
  bytes_decode element.

(** [WithKeys(lambda _: random.randint(0, self.num_shards - 1))]: the
    element is passed to the lambda, which ignores it. *)
Definition add_key {A : Type} (self : GroupMessagesByFixedWindows)
    (element : A) : M R (Z * A) :=
  k <- random_randint 0 (num_shards self - 1) ;;
  ret (k, element).

(** [GroupByKey]: the values of one key and one window are collected in
    the order they arrive; groups are kept in order of first arrival. *)
Fixpoint group_insert (w : window.IntervalWindow) (k : Z) (v : string)
    (groups : list (Windowed (Z * list string)))
  : list (Windowed (Z * list string)) :=
  match groups with
  | [] => [mkWindowed (k, [v]) (window.end_ w - 1) w]
  | g :: rest =>
    if decide (in_window g = w /\ (value g).1 = k) then
      mkWindowed (k, ((value g).2 ++ [v])%list) (timestamp g) w :: rest
    else g :: group_insert w k v rest
  end.

Definition GroupByKey (pcoll : list (Windowed (Z * string)))
  : list (Windowed (Z * list string)) :=
  fold_left
    (fun groups e => group_insert (in_window e) (value e).1 (value e).2 groups)
    pcoll [].

(** What [expand] has built once the transform is applied to the
    pipeline: the window function.  [FixedWindows(self.window_size)] is
    evaluated at that point; the key lambda is only stored. *)
Definition GroupMessagesByFixedWindows_construct
    (self : GroupMessagesByFixedWindows) : result window.FixedWindows :=
  window.FixedWindows_init (window_size self).

(** The three element-wise steps of [expand], in the order of the source,
    on one message and its publish time. *)
Definition expand_element (self : GroupMessagesByFixedWindows)
    (fn : window.FixedWindows) (message : string * Z)
  : M R (Windowed (Z * string)) :=
  _ <- step "Window into fixed intervals" ;;
  let windowed := mkWindowed message.1 message.2 (window.assign fn message.2) in
  _ <- step "Decode message" ;;
  decoded <- lift (DecodeMessage_process (value windowed)) ;;
  _ <- step "Add key" ;;
  keyed <- add_key self decoded ;;
  ret (mkWindowed keyed (timestamp windowed) (in_window windowed)).

Definition GroupMessagesByFixedWindows_expand
    (self : GroupMessagesByFixedWindows) (fn : window.FixedWindows)
    (pcoll : list (string * Z)) : M R (list (Windowed (Z * list string))) :=
  keyed <- mapM (expand_element self fn) pcoll ;;
  _ <- step "Group by key" ;;
  ret (GroupByKey keyed).

(** *** [class WriteToGCS(DoFn)] *)

Record WriteToGCS : Type := mkWriteToGCS {
  output_gcs_directory : string;
  compression_method : string
}.

(** Lines 64-89 of [process]: the file name and the MIME type. *)
Definition WriteToGCS_filename (self : WriteToGCS) (shard_id : Z)
    (w : window.IntervalWindow) : result (string * string) :=
  match window.to_utc_datetime (window.start w) with
  | inl e => inl e
  | inr window_start_dt =>
    let date_dir := datetime.strftime_Ymd window_start_dt in
    match window.to_utc_datetime (window.start w) with
    | inl e => inl e
    | inr start_dt =>
      let window_start := datetime.strftime_HM start_dt in
      match window.to_utc_datetime (window.end_ w) with
      | inl e => inl e
      | inr end_dt =>
        let window_end := datetime.strftime_HM end_dt in
        let suffix := "json" in
        let filename :=
          output_gcs_directory self +:+ "/" +:+ date_dir +:+ "/logs-"
          +:+ window_start +:+ "-" +:+ window_end +:+ "-"
          +:+ pretty shard_id +:+ "." +:+ suffix in
        let mime_type := "application/octet-stream" in
        if String.eqb (compression_method self) "gzip" then
          inr (filename +:+ ".gz", "application/gzip")
        else if String.eqb (compression_method self) "deflate" then
          inr (filename +:+ ".zlib", "application/zlib")
        else if String.eqb (compression_method self) "bz2" then
          inr (filename +:+ ".bz2", "application/x-bzip2")
        else
          inr (filename, "application/json")
      end
    end
  end.

(** [f"{message_body}\n".encode()] *)
Definition encode_line (message_body : string) : string :=
  str_encode (message_body +:+ NL).

(** Lines 93-112 of [process], the body of the [with ... as f] block: the
    bytes the GCS writer [f] has received when the block is left, and the
    exception that leaves it, if one does. *)
Definition WriteToGCS_body (self : WriteToGCS) (batch : list string)
  : M R (string * result unit) :=
  if String.eqb (compression_method self) "gzip" then
    now <- time_time ;;
    match gzip.open now with
    | (f, inl e) => ret (f, inl e)
    | (_, inr gz) =>
      let gz_f :=
        fold_left (fun gz message_body => gzip.write gz (encode_line message_body))
          batch gz in
      ret (gzip.close gz_f)
    end
  else if String.eqb (compression_method self) "deflate" then
    let all_messages := join (map encode_line batch) in
    ret (zlib_compress all_messages, inr tt)
  else if String.eqb (compression_method self) "bz2" then
    let all_messages := join (map encode_line batch) in
    ret (bz2_compress all_messages, inr tt)
  else
    ret (fold_left (fun f message_body => f +:+ encode_line message_body)
           batch "", inr tt).

(** The bytes the GCS writer has received when the block is left without
    an exception. *)
Definition WriteToGCS_payload (self : WriteToGCS) (batch : list string)
  : M R string :=
  out <- WriteToGCS_body self batch ;;
  match out.2 with
  | inr _ => ret out.1
  | inl e => lift (inl e)
  end.

(** [process]: leaving the [with] block closes the writer, which creates
    the object from what it has received, also when an exception leaves the
    block; the exception is raised again afterwards. *)
Definition WriteToGCS_process (self : WriteToGCS)
    (key_value : Z * list string) (w : window.IntervalWindow) : M R unit :=
  let '(shard_id, batch) := key_value in
  target <- lift (WriteToGCS_filename self shard_id w) ;;
  out <- WriteToGCS_body self batch ;;
  _ <- gcs_create target.1 out.1 target.2 ;;
  lift out.2.

(** *** [run] *)

Record Pipeline : Type := mkPipeline {
  group_transform : GroupMessagesByFixedWindows;
  window_fn : window.FixedWindows;
  writer : WriteToGCS
}.

(** The body of the [with Pipeline(...)] block: the graph is built, and
    nothing has been read yet. *)
Definition run_construct (output_gcs_directory compression_type : string)
    (window_interval_sec num_shards : Z) : result Pipeline :=
  let grouping := GroupMessagesByFixedWindows_init window_interval_sec num_shards in
  match GroupMessagesByFixedWindows_construct grouping with
  | inl e => inl e
  | inr fn =>
    inr (mkPipeline grouping fn (mkWriteToGCS output_gcs_directory compression_type))
  end.

Definition write_group (p : Pipeline) (g : Windowed (Z * list string))
  : M R unit :=
  _ <- step "Write to GCS" ;;
  WriteToGCS_process (writer p) (value g) (in_window g).

(** Leaving the [with] block runs the pipeline, here over the finite
    sequence [messages] of payloads with their publish times, every window
    being emitted once when the input is exhausted. *)
Definition run_execute (p : Pipeline) (messages : list (string * Z))
  : M R unit :=
  batches <- GroupMessagesByFixedWindows_expand (group_transform p)
               (window_fn p) messages ;;
  _ <- mapM (write_group p) batches ;;
  ret tt.

Definition run (output_gcs_directory compression_type : string)
    (window_interval_sec num_shards : Z) (messages : list (string * Z))
  : M R unit :=
  p <- lift (run_construct output_gcs_directory compression_type
               window_interval_sec num_shards) ;;
  run_execute p messages.

End pipeline.

(** ** Instances used to run the model

    A linear congruential generator as the random source, and a codec that
    stores the data unchanged behind a format tag as the compressor. *)

Definition lcg : RandomSource Z :=
  fun n g => (g mod n, (1103515245 * g + 12345) mod 2147483648).

Definition strip_prefix (tag s : string) : option string :=
  if String.prefix tag s then Some (gzip.drop (String.length tag) s) else None.

Definition stored : Compression := {|
  zlib_compress := fun data => String (chr 120) (String (chr 1) data);
  zlib_decompress := strip_prefix (String (chr 120) (String (chr 1) ""));
  bz2_compress := fun data => "BZh0" +:+ data;
  bz2_decompress := strip_prefix "BZh0";
  deflate_raw := fun data => data;
  inflate_raw := fun data => Some data
|}.

Definition world0 (seed now : Z) : World Z := mkWorld seed now ∅ [].

(** ** Reading an object back, in the words of the specification

    "Decompressing an encoded batch with the corresponding algorithm and
    splitting on newlines": every line feed ends one record, and bytes after
    the last line feed, if any, form a last record. *)

Fixpoint split_newlines (s : string) : list string :=
  match s with
  | EmptyString => []
  | String c r =>
    if Ascii.eqb c LF then "" :: split_newlines r
    else match split_newlines r with
         | [] => [String c ""]
         | l :: ls => String c l :: ls
         end
  end.

Definition decompress_with {C : Compression} (method blob : string)
  : option string :=
  if String.eqb method "gzip" then gzip.decompress blob
  else if String.eqb method "deflate" then zlib_decompress blob
  else if String.eqb method "bz2" then bz2_decompress blob
  else Some blob.


Definition read_back {C : Compression} (method blob : string)
  : option (list string) :=
  match decompress_with method blob with
  | Some text => Some (split_newlines text)
  | None => None
  end.

(** ** The order of stages as the specification gives it

    "Decoder -> Window Assigner -> Shard Key Generator": the element-wise
    steps with the decoder first. *)

Definition spec_expand_element {R} {RS : RandomSource R}
    (self : GroupMessagesByFixedWindows) (fn : window.FixedWindows)
    (message : string * Z) : M R (Windowed (Z * string)) :=
  _ <- step "Decode message" ;;
  decoded <- lift (DecodeMessage_process message.1) ;;
  _ <- step "Window into fixed intervals" ;;
  let windowed := mkWindowed decoded message.2 (window.assign fn message.2) in
  _ <- step "Add key" ;;
  keyed <- add_key self (value windowed) ;;
  ret (mkWindowed keyed (timestamp windowed) (in_window windowed)).

(** ** The object layout, in the words of the specification

    The batch as newline-delimited text, and the path
    [{output_directory}/{YYYY}/{MM}/{DD}/logs-{window_start:HH:MM}-{window_end:HH:MM}-{shard_id}.json[{suffix}]]. *)

Definition plain_text (batch : list string) : string :=
  join (map (fun body => body +:+ NL) batch).

Definition spec_path (output_directory : string)
    (window_start window_end : datetime.t) (shard_id : Z) (suffix : string)
  : string :=
  output_directory +:+ "/" +:+ datetime.pad4 (datetime.year window_start)
  +:+ "/" +:+ datetime.pad2 (datetime.month window_start)
  +:+ "/" +:+ datetime.pad2 (datetime.day window_start)
  +:+ "/logs-" +:+ datetime.pad2 (datetime.hour window_start)
  +:+ ":" +:+ datetime.pad2 (datetime.minute window_start)
  +:+ "-" +:+ datetime.pad2 (datetime.hour window_end)
  +:+ ":" +:+ datetime.pad2 (datetime.minute window_end)
  +:+ "-" +:+ pretty shard_id +:+ ".json" +:+ suffix.

(** The table of section 4.4: path suffix after [.json], and content type. *)
Definition extension (method : string) : string :=
  if String.eqb method "gzip" then ".gz"
  else if String.eqb method "deflate" then ".zlib"
  else if String.eqb method "bz2" then ".bz2"
  else "".

Definition mime (method : string) : string :=
  if String.eqb method "gzip" then "application/gzip"
  else if String.eqb method "deflate" then "application/zlib"
  else if String.eqb method "bz2" then "application/x-bzip2"
  else "application/json".

(** The encoding column of the same table, for a batch written at time
    [now]. *)
Definition encoded {C : Compression} (method : string) (now : Z)
    (batch : list string) : string :=
  if String.eqb method "gzip" then gzip.member now (plain_text batch)
  else if String.eqb method "deflate" then zlib_compress (plain_text batch)
  else if String.eqb method "bz2" then bz2_compress (plain_text batch)
  else plain_text batch.

(** The labels of the element-wise steps. *)
Definition W_ : string := "Window into fixed intervals".
Definition D_ : string := "Decode message".
Definition K_ : string := "Add key".

(** The same world with further step labels in its log. *)
Definition logged {R} (w : World R) (labels : list string) : World R :=
  mkWorld (rng w) (clock w) (gcs w) (log w ++ labels)%list.

(** The world after the writer for [filename] has been closed. *)
Definition with_object {R} (w : World R) (filename data mime_type : string)
  : World R :=
  mkWorld (rng w) (clock w)
    (<[filename := mkGcsObject data mime_type]> (gcs w)) (log w).


(** The last step of [_ord2ymd], from the day of the year to month and day,
    and the check that it agrees with [_DAYS_BEFORE_MONTH]. *)
Definition month_day (n : Z) (leapyear : bool) : Z * Z :=
  let month := Z.shiftr (n + 50) 5 in
  let preceding :=
    datetime.index datetime._DAYS_BEFORE_MONTH month
    + datetime.b2z ((month >? 2) && leapyear) in
  if preceding >? n then
    let month := month - 1 in
    let preceding :=
      preceding - (datetime.index datetime._DAYS_IN_MONTH month
                   + datetime.b2z ((month =? 2) && leapyear)) in
    (month, n - preceding + 1)
  else (month, n - preceding + 1).

Definition month_day_ok (leapyear : bool) (n : Z) : bool :=
  let '(m, d) := month_day n leapyear in
  (1 <=? m) && (m <=? 12) && (1 <=? d) && (d <=? 31)
  && (datetime.index datetime._DAYS_BEFORE_MONTH m
      + datetime.b2z ((m >? 2) && leapyear) + d =? n + 1).

(** ** Further notions used to state properties of the pipeline *)

(** The instants [datetime] can represent, in microseconds since the epoch:
    from 0001-01-01 00:00 up to, but excluding, 10000-01-01 00:00. *)
Definition datetime_min_micros : Z := -62135596800000000.
Definition datetime_end_micros : Z := 253402300800000000.

Definition in_calendar (micros : Z) : bool :=
  (datetime_min_micros <=? micros) && (micros <? datetime_end_micros).

(** The readings of the clock that the modification time of a gzip header
    can hold, in seconds since the epoch: from 1970 to 7 February 2106. *)
Definition in_header_range (now : Z) : bool :=
  (0 <=? now) && (now <? 4294967296).

(** The writer of [method] can stamp its output at [now]: only the gzip
    writer reads the clock. *)
Definition stampable (method : string) (now : Z) : Prop :=
  method = "gzip" -> 0 <= now < 4294967296.

(** The values collected for window [w] and key [k], in order of arrival. *)
Definition group_of (w : window.IntervalWindow) (k : Z)
    (pcoll : list (Windowed (Z * string))) : list string :=
  map (fun e => (value e).2)
    (filter (fun e => in_window e = w /\ (value e).1 = k) pcoll).

Definition group_key (g : Windowed (Z * list string))
  : window.IntervalWindow * Z :=
  (in_window g, (value g).1).

(** The values of the first group with window [w] and key [k], if any. *)
Fixpoint lookup_group (w : window.IntervalWindow) (k : Z)
    (groups : list (Windowed (Z * list string))) : option (list string) :=
  match groups with
  | [] => None
  | g :: rest =>
    if decide (in_window g = w /\ (value g).1 = k) then Some (value g).2
    else lookup_group w k rest
  end.

Fixpoint total_values (groups : list (Windowed (Z * list string))) : nat :=
  match groups with
  | [] => O
  | g :: rest => (length (value g).2 + total_values rest)%nat
  end.

Fixpoint is_ascii (s : string) : bool :=
  match s with
  | EmptyString => true
  | String c r => (byte_val c <? 128) && is_ascii r
  end.

(** The window of timestamp [t], for windows of [window_size_sec] seconds,
    has both bounds in the calendar. *)
Definition window_in_calendar (window_size_sec t : Z) : bool :=
  let w := window.assign (window.mkFixedWindows (window_size_sec * 1000000) 0) t in
  in_calendar (window.start w) && in_calendar (window.end_ w).

(** The labels logged while [messages] pass the element-wise steps. *)
Definition element_labels {A : Type} (messages : list A) : list string :=
  concat (map (fun _ => [W_; D_; K_]) messages).

Global Instance GcsObject_eq_dec : EqDecision GcsObject.
Proof. solve_decision. Defined.

(** From [w] to [w'] the clock has not moved and the store has changed
    under the directory [dir] only. *)
Definition changed_under {R} (dir : string) (w w' : World R) : Prop :=
  clock w' = clock w
  /\ forall p : string,
       gcs w' !! p <> gcs w !! p -> exists rest : string, p = dir +:+ "/" +:+ rest.

(** Bytes that occur in no UTF-8 text: C0, C1 and F5 to FF. *)
Definition never_in_utf8 (c : ascii) : bool :=
  (byte_val c =? 192) || (byte_val c =? 193) || (245 <=? byte_val c).

Fixpoint has_byte (f : ascii -> bool) (s : string) : bool :=
  match s with
  | EmptyString => false
  | String c r => f c || has_byte f r
  end.

(** * Properties *)

(** ** Strings *)

Lemma str_app_cons (c : ascii) (s t : string) :
  String c s +:+ t = String c (s +:+ t).
Proof. reflexivity. Qed.

Lemma str_app_nil_r (s : string) : s +:+ "" = s.
Proof. induction s as [|c s IH]; [reflexivity|]. rewrite str_app_cons, IH. reflexivity. Qed.

Lemma str_app_assoc (s t u : string) : (s +:+ t) +:+ u = s +:+ (t +:+ u).
Proof.
  induction s as [|c s IH]; [reflexivity|].
  rewrite !str_app_cons, IH. reflexivity.
Qed.

Lemma str_length_app (s t : string) :
  String.length (s +:+ t) = (String.length s + String.length t)%nat.
Proof.
  induction s as [|c s IH]; [reflexivity|].
  rewrite str_app_cons. simpl. rewrite IH. reflexivity.
Qed.

(** Two concatenations that agree and whose heads have the same length
    agree part by part. *)
Lemma str_app_eq_same_length (s1 s2 t1 t2 : string) :
  String.length s1 = String.length s2 ->
  s1 +:+ t1 = s2 +:+ t2 -> s1 = s2 /\ t1 = t2.
Proof.
  revert s2. induction s1 as [|c s1 IH]; intros [|d s2] Hlen Heq;
    simpl in Hlen; try discriminate.
  - split; [reflexivity | exact Heq].
  - rewrite !str_app_cons in Heq. injection Heq as -> Heq.
    destruct (IH s2) as [-> ->]; [lia | exact Heq | split; reflexivity].
Qed.

Lemma str_app_inv_tail (s1 s2 t : string) : s1 +:+ t = s2 +:+ t -> s1 = s2.
Proof.
  intros Heq.
  assert (Hlen : String.length s1 = String.length s2).
  { apply (f_equal String.length) in Heq. rewrite !str_length_app in Heq. lia. }
  apply (str_app_eq_same_length _ _ _ _ Hlen Heq).
Qed.

(** ** The window assigner *)

Section window_assigner.

Lemma FixedWindows_init_positive (window_size_sec : Z) :
  0 < window_size_sec ->
  window.FixedWindows_init window_size_sec
  = inr (window.mkFixedWindows (window_size_sec * 1000000) 0).
Proof.
  intros Hpos. unfold window.FixedWindows_init.
  destruct (Z.leb_spec window_size_sec 0) as [Hle|_]; [lia|].
  rewrite Z.mod_0_l by lia. reflexivity.
Qed.

Lemma assign_floor (S t : Z) :
  0 < S ->
  window.assign (window.mkFixedWindows S 0) t
  = window.mkIntervalWindow (t / S * S) (t / S * S + S).
Proof.
  intros HS. unfold window.assign. simpl.
  rewrite Z.sub_0_r.
  assert (Hmod : t - t mod S = t / S * S).
  { pose proof (Z.div_mod t S ltac:(lia)). lia. }
  rewrite Hmod. reflexivity.
Qed.

Lemma floor_window_unique (S t u : Z) :
  0 < S -> (u / S * S <= t < u / S * S + S <-> u / S = t / S).
Proof.
  intros HS. split.
  - intros [Hlo Hhi]. apply (Z.div_unique t S (u / S) (t - u / S * S)); lia.
  - intros ->. pose proof (Z.div_mod t S ltac:(lia)).
    pose proof (Z.mod_pos_bound t S HS). lia.
Qed.

(** C7. For a positive [window_size_sec] the window function is built, and
    it sends every timestamp [t] to the window that starts at
    [floor(t / size) * size] and lasts [size]; that window contains [t],
    and a window of the assigner contains [t] exactly when it is the
    window of [t], so that the windows neither overlap nor leave a gap.
    On whole seconds [ts] the start is [floor(ts / window_size_sec) *
    window_size_sec] seconds. *)
Theorem window_assignment_tiles (window_size_sec : Z) :
  0 < window_size_sec ->
  exists fn : window.FixedWindows,
    window.FixedWindows_init window_size_sec = inr fn /\
    forall t : Z,
      let size := window_size_sec * 1000000 in
      window.assign fn t
        = window.mkIntervalWindow (t / size * size) (t / size * size + size)
      /\ window.start (window.assign fn t) <= t < window.end_ (window.assign fn t)
      /\ (forall u : Z,
            window.start (window.assign fn u) <= t < window.end_ (window.assign fn u)
            <-> window.assign fn u = window.assign fn t)
      /\ (forall ts : Z,
            window.assign fn (ts * 1000000)
            = window.mkIntervalWindow
                (ts / window_size_sec * window_size_sec * 1000000)
                ((ts / window_size_sec * window_size_sec + window_size_sec)
                 * 1000000)).
Proof.
  intros Hpos. eexists. split; [apply FixedWindows_init_positive; exact Hpos|].
  intros t size.
  assert (Hsize : 0 < size) by (unfold size; lia).
  rewrite assign_floor by exact Hsize.
  split; [reflexivity|]. split.
  { simpl. apply floor_window_unique; [exact Hsize | reflexivity]. }
  split.
  - intros u. rewrite assign_floor by exact Hsize. simpl.
    rewrite floor_window_unique by exact Hsize. split.
    + intros ->. reflexivity.
    + intros Heq. injection Heq as Heq _. nia.
  - intros ts. rewrite assign_floor by exact Hsize. unfold size.
    rewrite Z.div_mul_cancel_r by lia.
    f_equal; lia.
Qed.

(** The window of a timestamp of November 2023, for windows of a minute. *)
Lemma window_assignment_tiles_witness :
  0 < 60 /\
  exists fn : window.FixedWindows,
    window.FixedWindows_init 60 = inr fn /\
    window.assign fn 1700000012345678
    = window.mkIntervalWindow 1699999980000000 1700000040000000.
Proof.
  split; [lia|].
  destruct (window_assignment_tiles 60 ltac:(lia)) as [fn [Hfn Hall]].
  exists fn. split; [exact Hfn|].
  destruct (Hall 1700000012345678) as [Heq _]. exact Heq.
Defined.

End window_assigner.

(** ** The shard key *)

Section shard_key.
Context {R : Type} {RS : RandomSource R} {RSok : RandomSourceOk R}.

Lemma random_randint_range (a b : Z) (w : World R) :
  a <= b ->
  exists (k : Z) (g : R),
    random_randint a b w = (inr k, mkWorld g (clock w) (gcs w) (log w))
    /\ a <= k <= b.
Proof.
  intros Hab. unfold random_randint, random_randrange.
  destruct (Z.gtb_spec (b + 1 - a) 0) as [Hw|Hw]; [|lia].
  pose proof (_randbelow_range (b + 1 - a) (rng w) Hw) as Hr.
  destruct (_randbelow (b + 1 - a) (rng w)) as [r g]. simpl in Hr.
  exists (a + r), g. split; [reflexivity | lia].
Qed.

(** C8. For a positive [num_shards] the key step does not raise: it
    yields a key in [[0, num_shards)] paired with the element unchanged;
    the key does not depend on the element; and with [num_shards = 1] the
    key is 0. *)
Theorem shard_key_in_range (self : GroupMessagesByFixedWindows)
    (A : Type) (element : A) (w : World R) :
  0 < num_shards self ->
  exists (k : Z) (w' : World R),
    add_key self element w = (inr (k, element), w')
    /\ 0 <= k < num_shards self
    /\ (forall (B : Type) (other : B), add_key self other w = (inr (k, other), w'))
    /\ (num_shards self = 1 -> k = 0).
Proof.
  intros Hpos.
  destruct (random_randint_range 0 (num_shards self - 1) w ltac:(lia))
    as (k & g & Hk & Hrange).
  exists k, (mkWorld g (clock w) (gcs w) (log w)).
  unfold add_key, bind, ret. rewrite Hk.
  split; [reflexivity|]. split; [lia|]. split; [reflexivity | lia].
Qed.

End shard_key.

Global Instance lcg_ok : RandomSourceOk (RS:=lcg) Z.
Proof.
  intros n g Hn. unfold _randbelow, lcg. simpl.
  apply Z.mod_pos_bound. exact Hn.
Qed.

(** A key for five shards, drawn by the linear congruential generator. *)
Lemma shard_key_in_range_witness :
  0 < 5 /\
  exists (k : Z) (w' : World Z),
    add_key (R:=Z) (RS:=lcg) (A:=string) (mkGroupMessagesByFixedWindows 60 5) "x" (world0 7 0)
    = (inr (k, "x"), w')
    /\ 0 <= k < 5.
Proof.
  split; [lia|].
  destruct (@shard_key_in_range Z lcg lcg_ok (mkGroupMessagesByFixedWindows 60 5)
              string "x" (world0 7 0) ltac:(simpl; lia))
    as (k & w' & Hk & Hr & _).
  exists k, w'. split; [exact Hk | exact Hr].
Defined.

(** ** The writer *)

Section writer.
Context {R : Type} {RS : RandomSource R} {C : Compression}.

Lemma plain_fold (batch : list string) (acc : string) :
  fold_left (fun f message_body => f +:+ encode_line message_body) batch acc
  = acc +:+ plain_text batch.
Proof.
  revert acc. induction batch as [|b batch IH]; intros acc; simpl.
  - rewrite str_app_nil_r. reflexivity.
  - rewrite IH. unfold plain_text. simpl. unfold encode_line, str_encode.
    rewrite str_app_assoc. reflexivity.
Qed.

Lemma crc32_from_app (crc : Z) (a b : string) :
  gzip.crc32_from crc (a +:+ b) = gzip.crc32_from (gzip.crc32_from crc a) b.
Proof.
  revert crc. induction a as [|c a IH]; intros crc; [reflexivity|].
  rewrite str_app_cons. simpl. apply IH.
Qed.

Lemma crc32_value_app (value : Z) (a b : string) :
  gzip.crc32_value (a +:+ b) value
  = gzip.crc32_value b (gzip.crc32_value a value).
Proof.
  unfold gzip.crc32_value. rewrite crc32_from_app.
  rewrite Z.lxor_assoc, Z.lxor_nilpotent, Z.lxor_0_r. reflexivity.
Qed.

(** Writing the lines of a batch one by one keeps the size and the checksum
    of the data written so far. *)
Lemma gzip_fold (batch : list string) (gz : gzip.GzipFile) :
  fold_left (fun gz message_body => gzip.write gz (encode_line message_body))
    batch gz
  = gzip.mkGzipFile (gzip.head gz) (gzip.written gz +:+ plain_text batch)
      (gzip.size gz + Z.of_nat (String.length (plain_text batch)))
      (gzip.crc32_value (plain_text batch) (gzip.crc gz)).
Proof.
  revert gz. induction batch as [|b batch IH]; intros [h d n c].
  - simpl. rewrite str_app_nil_r, Z.add_0_r.
    unfold gzip.crc32_value. simpl.
    rewrite Z.lxor_assoc, Z.lxor_nilpotent, Z.lxor_0_r. reflexivity.
  - cbn [fold_left]. unfold gzip.write at 2.
    destruct (Z.gtb_spec (Z.of_nat (String.length (encode_line b))) 0) as [_|Hlen].
    2: { unfold encode_line, str_encode in Hlen.
         rewrite str_length_app in Hlen. simpl in Hlen. lia. }
    rewrite IH. cbn [gzip.head gzip.written gzip.size gzip.crc].
    change (plain_text (b :: batch)) with (encode_line b +:+ plain_text batch).
    rewrite str_app_assoc, str_length_app, crc32_value_app.
    f_equal. lia.
Qed.

(** [struct.pack("<L", v)] raises exactly outside the 32-bit range. *)
Lemma write32u_in_range (v : Z) :
  0 <= v < 4294967296 -> gzip.write32u v = inr (gzip.pack_L v).
Proof.
  intros Hv. unfold gzip.write32u.
  destruct (Z.leb_spec 0 v); [|lia].
  destruct (Z.ltb_spec v 4294967296); [|lia]. reflexivity.
Qed.

Lemma write32u_outside (v : Z) :
  ~ 0 <= v < 4294967296 -> gzip.write32u v = inl struct_error.
Proof.
  intros Hv. unfold gzip.write32u.
  destruct (Z.leb_spec 0 v); [|reflexivity].
  destruct (Z.ltb_spec v 4294967296); [lia|reflexivity].
Qed.

Lemma in_header_range_spec (now : Z) :
  in_header_range now = true <-> 0 <= now < 4294967296.
Proof. unfold in_header_range. lia. Qed.

Lemma log2_below (n a : Z) : 0 < n -> 0 <= a < 2 ^ n -> Z.log2 a < n.
Proof.
  intros Hn Ha. destruct (Z.eq_dec a 0) as [->|Hne]; [exact Hn|].
  apply Z.log2_lt_pow2; lia.
Qed.

Lemma lxor_range (n a b : Z) :
  0 < n -> 0 <= a < 2 ^ n -> 0 <= b < 2 ^ n -> 0 <= Z.lxor a b < 2 ^ n.
Proof.
  intros Hn Ha Hb.
  assert (H0 : 0 <= Z.lxor a b) by (apply Z.lxor_nonneg; lia).
  split; [exact H0|].
  destruct (Z.eq_dec (Z.lxor a b) 0) as [->|Hne]; [apply Z.pow_pos_nonneg; lia|].
  apply Z.log2_lt_pow2; [lia|].
  pose proof (Z.log2_lxor a b ltac:(lia) ltac:(lia)).
  pose proof (log2_below n a Hn Ha). pose proof (log2_below n b Hn Hb). lia.
Qed.

Lemma byte_val_range (c : ascii) : 0 <= byte_val c < 256.
Proof. unfold byte_val. pose proof (N_ascii_bounded c). lia. Qed.

(** The running checksum stays a 32-bit quantity. *)
Lemma crc32_shift_range (crc : Z) :
  0 <= crc < 2 ^ 32 -> 0 <= gzip.crc32_shift crc < 2 ^ 32.
Proof.
  intros Hc. unfold gzip.crc32_shift.
  assert (Hs : 0 <= Z.shiftr crc 1 < 2 ^ 32).
  { rewrite Z.shiftr_div_pow2 by lia. change (2 ^ 1) with 2.
    split; [apply Z.div_pos; lia|].
    apply Z.div_lt_upper_bound; lia. }
  destruct (Z.testbit crc 0); [|exact Hs].
  apply lxor_range; [lia|exact Hs|lia].
Qed.

Lemma crc32_update_range (crc : Z) (c : ascii) :
  0 <= crc < 2 ^ 32 -> 0 <= gzip.crc32_update crc c < 2 ^ 32.
Proof.
  intros Hc. unfold gzip.crc32_update.
  assert (Hx : 0 <= Z.lxor crc (byte_val c) < 2 ^ 32).
  { apply lxor_range; [lia|exact Hc|].
    pose proof (byte_val_range c). lia. }
  generalize dependent (Z.lxor crc (byte_val c)). intros x Hx.
  do 8 (rewrite Nat.iter_succ_r; apply crc32_shift_range in Hx).
  exact Hx.
Qed.

Lemma crc32_from_range (data : string) (crc : Z) :
  0 <= crc < 2 ^ 32 -> 0 <= gzip.crc32_from crc data < 2 ^ 32.
Proof.
  revert crc. induction data as [|c data IH]; intros crc Hc; [exact Hc|].
  simpl. apply IH, crc32_update_range, Hc.
Qed.

Lemma crc32_value_range (data : string) (value : Z) :
  0 <= value < 4294967296 -> 0 <= gzip.crc32_value data value < 4294967296.
Proof.
  intros Hv. unfold gzip.crc32_value.
  change 4294967296 with (2 ^ 32) in *.
  apply lxor_range; [lia| |lia].
  apply crc32_from_range, lxor_range; lia.
Qed.

Lemma land_mask_range (n : Z) : 0 <= Z.land n 4294967295 < 4294967296.
Proof.
  change 4294967295 with (Z.ones 32). rewrite Z.land_ones by lia.
  change 4294967296 with (2 ^ 32). apply Z.mod_pos_bound. lia.
Qed.

(** The constructor of [GzipFile] within the range of the header, and
    outside it. *)
Lemma open_in_range (now : Z) :
  0 <= now < 4294967296 ->
  gzip.open now
  = (gzip.header now, inr (gzip.mkGzipFile (gzip.header now) "" 0 (gzip.crc32 ""))).
Proof.
  intros Hnow. unfold gzip.open, gzip._write_gzip_header.
  rewrite write32u_in_range by exact Hnow. reflexivity.
Qed.

Lemma open_outside (now : Z) :
  ~ 0 <= now < 4294967296 ->
  gzip.open now = (gzip.preamble, inl struct_error).
Proof.
  intros Hnow. unfold gzip.open, gzip._write_gzip_header.
  rewrite write32u_outside by exact Hnow. reflexivity.
Qed.

(** The gzip branch writes one member for the whole batch, and closing it
    does not raise. *)
Lemma gzip_one_member (batch : list string) (now : Z) :
  gzip.close
    (fold_left (fun gz message_body => gzip.write gz (encode_line message_body))
       batch (gzip.mkGzipFile (gzip.header now) "" 0 (gzip.crc32 "")))
  = (gzip.member now (plain_text batch), inr tt).
Proof.
  rewrite gzip_fold. unfold gzip.close, gzip.member.
  cbn [gzip.head gzip.written gzip.size gzip.crc].
  rewrite write32u_in_range by (apply crc32_value_range; vm_compute; split; congruence).
  rewrite write32u_in_range by apply land_mask_range.
  unfold gzip.crc32. rewrite <- crc32_value_app.
  rewrite !str_app_assoc. reflexivity.
Qed.

(** What the body of the [with] block leaves: one complete object, or,
    when the gzip header cannot hold the clock, the first four bytes of a
    header and [struct.error]. *)
Lemma body_outcome (self : WriteToGCS) (batch : list string) (w : World R) :
  WriteToGCS_body self batch w
  = (inr (if String.eqb (compression_method self) "gzip"
             && negb (in_header_range (clock w))
          then (gzip.preamble, inl struct_error)
          else (encoded (compression_method self) (clock w) batch, inr tt)),
     w).
Proof.
  unfold WriteToGCS_body, encoded.
  destruct (String.eqb (compression_method self) "gzip").
  { unfold bind, time_time, ret. rewrite andb_true_l.
    destruct (in_header_range (clock w)) eqn:Hnow.
    - apply in_header_range_spec in Hnow.
      rewrite (open_in_range _ Hnow), gzip_one_member. reflexivity.
    - rewrite open_outside; [reflexivity|].
      intros Hin. apply in_header_range_spec in Hin. congruence. }
  rewrite andb_false_l.
  destruct (String.eqb (compression_method self) "deflate"); [reflexivity|].
  destruct (String.eqb (compression_method self) "bz2"); [reflexivity|].
  unfold ret. rewrite plain_fold. reflexivity.
Qed.

Lemma body_stampable (self : WriteToGCS) (batch : list string) (w : World R) :
  stampable (compression_method self) (clock w) ->
  WriteToGCS_body self batch w
  = (inr (encoded (compression_method self) (clock w) batch, inr tt), w).
Proof.
  intros Hclock. rewrite body_outcome.
  destruct (String.eqb_spec (compression_method self) "gzip") as [Hm|_];
    [|reflexivity].
  apply Hclock, in_header_range_spec in Hm. rewrite Hm. reflexivity.
Qed.

Lemma payload_encoded (self : WriteToGCS) (batch : list string) (w : World R) :
  stampable (compression_method self) (clock w) ->
  WriteToGCS_payload self batch w
  = (inr (encoded (compression_method self) (clock w) batch), w).
Proof.
  intros Hclock. unfold WriteToGCS_payload, bind.
  rewrite body_stampable by exact Hclock. reflexivity.
Qed.

Lemma payload_gzip (dir : string) (batch : list string) (w : World R) :
  0 <= clock w < 4294967296 ->
  WriteToGCS_payload (mkWriteToGCS dir "gzip") batch w
  = (inr (gzip.member (clock w) (plain_text batch)), w).
Proof.
  intros Hclock.
  rewrite payload_encoded by (intros _; exact Hclock). reflexivity.
Qed.

Lemma payload_deflate (dir : string) (batch : list string) (w : World R) :
  WriteToGCS_payload (mkWriteToGCS dir "deflate") batch w
  = (inr (zlib_compress (plain_text batch)), w).
Proof. rewrite payload_encoded by discriminate. reflexivity. Qed.

Lemma payload_bz2 (dir : string) (batch : list string) (w : World R) :
  WriteToGCS_payload (mkWriteToGCS dir "bz2") batch w
  = (inr (bz2_compress (plain_text batch)), w).
Proof. rewrite payload_encoded by discriminate. reflexivity. Qed.

Lemma payload_other (dir method : string) (batch : list string) (w : World R) :
  method <> "gzip" -> method <> "deflate" -> method <> "bz2" ->
  WriteToGCS_payload (mkWriteToGCS dir method) batch w
  = (inr (plain_text batch), w).
Proof.
  intros Hg Hd Hb.
  rewrite payload_encoded by (intros Hm; simpl in Hm; congruence).
  unfold encoded. simpl. apply String.eqb_neq in Hg, Hd, Hb.
  rewrite Hg, Hd, Hb. reflexivity.
Qed.

(** The file name of the source is the path of the specification with the
    extension of the branch taken. *)
Lemma filename_stem (dir : string) (d1 d2 : datetime.t) (shard_id : Z)
    (ext : string) :
  (dir +:+ "/" +:+ datetime.strftime_Ymd d1 +:+ "/logs-"
   +:+ datetime.strftime_HM d1 +:+ "-" +:+ datetime.strftime_HM d2 +:+ "-"
   +:+ pretty shard_id +:+ "." +:+ "json") +:+ ext
  = spec_path dir d1 d2 shard_id ext.
Proof.
  unfold spec_path, datetime.strftime_Ymd, datetime.strftime_HM.
  rewrite !str_app_assoc. reflexivity.
Qed.

Lemma filename_representable (self : WriteToGCS) (shard_id : Z)
    (w : window.IntervalWindow) (d1 d2 : datetime.t) :
  window.to_utc_datetime (window.start w) = inr d1 ->
  window.to_utc_datetime (window.end_ w) = inr d2 ->
  WriteToGCS_filename self shard_id w
  = inr (spec_path (output_gcs_directory self) d1 d2 shard_id
           (extension (compression_method self)),
         mime (compression_method self)).
Proof.
  intros H1 H2. unfold WriteToGCS_filename, extension, mime.
  rewrite H1, H2.
  destruct (String.eqb (compression_method self) "gzip");
    [rewrite filename_stem; reflexivity|].
  destruct (String.eqb (compression_method self) "deflate");
    [rewrite filename_stem; reflexivity|].
  destruct (String.eqb (compression_method self) "bz2");
    [rewrite filename_stem; reflexivity|].
  rewrite <- (filename_stem _ _ _ _ ""), str_app_nil_r. reflexivity.
Qed.

Lemma process_representable (self : WriteToGCS) (shard_id : Z)
    (batch : list string) (w : window.IntervalWindow) (d1 d2 : datetime.t)
    (data : string) (world : World R) :
  window.to_utc_datetime (window.start w) = inr d1 ->
  window.to_utc_datetime (window.end_ w) = inr d2 ->
  WriteToGCS_payload self batch world = (inr data, world) ->
  WriteToGCS_process self (shard_id, batch) w world
  = (inr tt,
     with_object world
       (spec_path (output_gcs_directory self) d1 d2 shard_id
          (extension (compression_method self)))
       data (mime (compression_method self))).
Proof.
  intros H1 H2 Hdata. unfold WriteToGCS_process, bind, lift.
  rewrite (filename_representable self shard_id w d1 d2 H1 H2).
  unfold WriteToGCS_payload, bind, ret, lift in Hdata.
  destruct (WriteToGCS_body self batch world) as [[e|[sent [e|[]]]] world'];
    cbn [fst snd] in Hdata; try discriminate Hdata.
  injection Hdata as -> ->. reflexivity.
Qed.

(** C6. For every batch, every shard and every window whose bounds are
    dates, the writer stores: for gzip, at the path ending in [.json.gz],
    one gzip member of the whole batch with type [application/gzip], when
    the clock is a time the member's header can hold (from 1970 up to
    2**32 seconds later); for deflate, at [.json.zlib], with
    [application/zlib]; for bz2, at [.json.bz2], with
    [application/x-bzip2]; for uncompressed, at [.json], the text itself
    with [application/json]. *)
Theorem dispatch_suffix_and_content_type (dir : string) (shard_id : Z)
    (batch : list string) (w : window.IntervalWindow) (d1 d2 : datetime.t)
    (world : World R) :
  window.to_utc_datetime (window.start w) = inr d1 ->
  window.to_utc_datetime (window.end_ w) = inr d2 ->
  let written method :=
    WriteToGCS_process (mkWriteToGCS dir method) (shard_id, batch) w world in
  let stored suffix data mime_type :=
    (inr tt, with_object world (spec_path dir d1 d2 shard_id suffix) data mime_type) in
  (0 <= clock world < 4294967296 ->
   written "gzip"
   = stored ".gz" (gzip.member (clock world) (plain_text batch)) "application/gzip")
  /\ written "deflate"
    = stored ".zlib" (zlib_compress (plain_text batch)) "application/zlib"
  /\ written "bz2"
    = stored ".bz2" (bz2_compress (plain_text batch)) "application/x-bzip2"
  /\ written "uncompressed"
    = stored "" (plain_text batch) "application/json"
  /\ (forall suffix : string,
        exists stem : string,
          spec_path dir d1 d2 shard_id suffix = stem +:+ ".json" +:+ suffix).
Proof.
  intros H1 H2 written stored. unfold written, stored.
  split; [|split; [|split; [|split]]].
  - intros Hclock.
    apply (process_representable (mkWriteToGCS dir "gzip") _ _ _ _ _ _ _ H1 H2).
    apply payload_gzip, Hclock.
  - apply (process_representable (mkWriteToGCS dir "deflate") _ _ _ _ _ _ _ H1 H2).
    apply payload_deflate.
  - apply (process_representable (mkWriteToGCS dir "bz2") _ _ _ _ _ _ _ H1 H2).
    apply payload_bz2.
  - apply (process_representable (mkWriteToGCS dir "uncompressed") _ _ _ _ _ _ _ H1 H2).
    apply payload_other; discriminate.
  - intros suffix. unfold spec_path.
    eexists. rewrite <- !str_app_assoc. reflexivity.
Qed.

(** C10. A compression method other than ["gzip"], ["deflate"] and
    ["bz2"] makes the writer do what it does for ["uncompressed"], on every
    input; on a window whose bounds are dates it raises nothing and stores
    the records as [body + "\n"], at the [.json] path without further
    extension, with type [application/json]. *)
Theorem unknown_method_is_uncompressed (method dir : string)
    (key_value : Z * list string) (w : window.IntervalWindow)
    (world : World R) :
  method <> "gzip" -> method <> "deflate" -> method <> "bz2" ->
  WriteToGCS_process (mkWriteToGCS dir method) key_value w world
  = WriteToGCS_process (mkWriteToGCS dir "uncompressed") key_value w world
  /\ (forall d1 d2 : datetime.t,
        window.to_utc_datetime (window.start w) = inr d1 ->
        window.to_utc_datetime (window.end_ w) = inr d2 ->
        WriteToGCS_process (mkWriteToGCS dir method) key_value w world
        = (inr tt,
           with_object world (spec_path dir d1 d2 key_value.1 "")
             (plain_text key_value.2) "application/json")).
Proof.
  intros Hg Hd Hb.
  assert (Hext : extension method = "" /\ mime method = "application/json").
  { unfold extension, mime. apply String.eqb_neq in Hg, Hd, Hb.
    rewrite Hg, Hd, Hb. split; reflexivity. }
  destruct Hext as [Hext Hmime]. destruct key_value as [shard_id batch].
  split.
  - unfold WriteToGCS_process, bind, lift.
    assert (Hname : WriteToGCS_filename (mkWriteToGCS dir method) shard_id w
                    = WriteToGCS_filename (mkWriteToGCS dir "uncompressed") shard_id w).
    { unfold WriteToGCS_filename. simpl.
      apply String.eqb_neq in Hg, Hd, Hb. rewrite Hg, Hd, Hb. reflexivity. }
    rewrite Hname.
    destruct (WriteToGCS_filename (mkWriteToGCS dir "uncompressed") shard_id w)
      as [e|target]; [reflexivity|].
    rewrite !body_stampable by (intros Hm; simpl in Hm; congruence).
    unfold encoded. simpl. apply String.eqb_neq in Hg, Hd, Hb.
    rewrite Hg, Hd, Hb. reflexivity.
  - intros d1 d2 H1 H2.
    rewrite (process_representable (mkWriteToGCS dir method) shard_id batch w
               d1 d2 (plain_text batch) world H1 H2)
      by (apply payload_other; assumption).
    simpl. rewrite Hext, Hmime. reflexivity.
Qed.

End writer.

(** The gzip object of a batch of two records in the first minute of 1970. *)
Lemma dispatch_suffix_and_content_type_witness :
  window.to_utc_datetime 0 = inr (datetime.mk 1970 1 1 0 0 0 0)
  /\ window.to_utc_datetime 60000000 = inr (datetime.mk 1970 1 1 0 1 0 0)
  /\ 0 <= clock (world0 7 5) < 4294967296
  /\ WriteToGCS_process (R:=Z) (C:=stored) (mkWriteToGCS "gs://b/out" "gzip")
       (3, ["a"; "b"]) (window.mkIntervalWindow 0 60000000) (world0 7 5)
     = (inr tt,
        with_object (world0 7 5) "gs://b/out/1970/01/01/logs-00:00-00:01-3.json.gz"
          (gzip.member (C:=stored) 5 ("a" +:+ NL +:+ "b" +:+ NL)) "application/gzip").
Proof.
  assert (Hclock : 0 <= clock (world0 7 5) < 4294967296) by (simpl; lia).
  split; [reflexivity|]. split; [reflexivity|]. split; [exact Hclock|].
  exact (proj1 (@dispatch_suffix_and_content_type Z stored "gs://b/out" 3
                  ["a"; "b"] (window.mkIntervalWindow 0 60000000)
                  (datetime.mk 1970 1 1 0 0 0 0) (datetime.mk 1970 1 1 0 1 0 0)
                  (world0 7 5) eq_refl eq_refl) Hclock).
Defined.

(** The misspelt method ["gzp"] on the same batch. *)
Lemma unknown_method_is_uncompressed_witness :
  "gzp" <> "gzip" /\ "gzp" <> "deflate" /\ "gzp" <> "bz2"
  /\ WriteToGCS_process (R:=Z) (C:=stored) (mkWriteToGCS "gs://b/out" "gzp")
       (3, ["a"; "b"]) (window.mkIntervalWindow 0 60000000) (world0 7 5)
     = WriteToGCS_process (R:=Z) (C:=stored) (mkWriteToGCS "gs://b/out" "uncompressed")
         (3, ["a"; "b"]) (window.mkIntervalWindow 0 60000000) (world0 7 5).
Proof.
  split; [discriminate|]. split; [discriminate|]. split; [discriminate|].
  refine (proj1 (@unknown_method_is_uncompressed Z stored "gzp" "gs://b/out"
                   (3, ["a"; "b"]) (window.mkIntervalWindow 0 60000000)
                   (world0 7 5) _ _ _)); discriminate.
Defined.

(** ** Reading a batch back *)

Section round_trip.
Context {R : Type} {RS : RandomSource R} {C : Compression} {Cok : CompressionOk}.

Lemma split_newlines_line (body rest : string) :
  has_newline body = false ->
  split_newlines (body +:+ NL +:+ rest) = body :: split_newlines rest.
Proof.
  induction body as [|c body IH]; intros Hnl.
  - unfold NL. rewrite str_app_cons. simpl. reflexivity.
  - simpl in Hnl. apply orb_false_iff in Hnl as [Hc Hbody].
    rewrite str_app_cons. simpl. rewrite Hc, (IH Hbody). reflexivity.
Qed.

Lemma split_newlines_plain_text (batch : list string) :
  Forall (fun body => has_newline body = false) batch ->
  split_newlines (plain_text batch) = batch.
Proof.
  induction 1 as [|body batch Hbody _ IH]; [reflexivity|].
  unfold plain_text. simpl. rewrite str_app_assoc.
  rewrite split_newlines_line by exact Hbody.
  unfold plain_text in IH. rewrite IH. reflexivity.
Qed.

Lemma drop_app_length (s t : string) :
  gzip.drop (String.length s) (s +:+ t) = t.
Proof. induction s as [|c s IH]; [reflexivity|]. rewrite str_app_cons. exact IH. Qed.

Lemma take_app_length (s t : string) :
  gzip.take (String.length s) (s +:+ t) = s.
Proof.
  induction s as [|c s IH]; [destruct t; reflexivity|].
  rewrite str_app_cons. simpl. rewrite IH. reflexivity.
Qed.

Lemma length_pack_L (v : Z) : String.length (gzip.pack_L v) = 4%nat.
Proof. reflexivity. Qed.

(** [gzip.decompress] undoes a member, whatever its modification time. *)
Lemma gzip_roundtrip (mtime : Z) (data : string) :
  gzip.decompress (gzip.member mtime data) = Some data.
Proof.
  set (trailer := gzip.pack_L (gzip.crc32 data)
                  +:+ gzip.pack_L (Z.land (Z.of_nat (String.length data)) 4294967295)).
  set (fields := gzip.pack_L mtime +:+ String (chr 2) (String (chr 255) "")).
  assert (Hmember : gzip.member mtime data
            = String (chr 31) (String (chr 139) (String (chr 8) (String (chr 0)
                (fields +:+ deflate_raw data +:+ trailer))))) by reflexivity.
  assert (Htrailer : String.length trailer = 8%nat).
  { unfold trailer. rewrite str_length_app, !length_pack_L. reflexivity. }
  assert (Hfields : String.length fields = 6%nat).
  { unfold fields. rewrite str_length_app, length_pack_L. reflexivity. }
  assert (Hdrop : gzip.drop 6 (fields +:+ deflate_raw data +:+ trailer)
                  = deflate_raw data +:+ trailer).
  { rewrite <- Hfields. apply drop_app_length. }
  assert (Hlen : String.length (fields +:+ deflate_raw data +:+ trailer)
                 = (14 + String.length (deflate_raw data))%nat).
  { rewrite !str_length_app, Hfields, Htrailer. lia. }
  rewrite Hmember. clear Hmember.
  generalize dependent (fields +:+ deflate_raw data +:+ trailer).
  intros rest Hdrop Hlen.
  unfold gzip.decompress.
  change (byte_val (chr 31) =? 31) with true.
  change (byte_val (chr 139) =? 139) with true.
  change (byte_val (chr 8) =? 8) with true.
  change (byte_val (chr 0) =? 0) with true.
  rewrite Hdrop, Hlen.
  destruct (Z.leb_spec 14 (Z.of_nat (14 + String.length (deflate_raw data))))
    as [_|Hlt]; [|lia].
  change (true && true && true && true && true) with true. cbv iota.
  rewrite str_length_app, Htrailer.
  replace (String.length (deflate_raw data) + 8 - 8)%nat
    with (String.length (deflate_raw data)) by lia.
  rewrite take_app_length, drop_app_length, deflate_roundtrip.
  fold trailer. rewrite String.eqb_refl. reflexivity.
Qed.

Lemma decompress_encoded (method : string) (now : Z) (batch : list string) :
  decompress_with method (encoded method now batch) = Some (plain_text batch).
Proof.
  unfold decompress_with, encoded.
  destruct (String.eqb method "gzip"); [apply gzip_roundtrip|].
  destruct (String.eqb method "deflate"); [apply zlib_roundtrip|].
  destruct (String.eqb method "bz2"); [apply bz2_roundtrip|].
  reflexivity.
Qed.

(** C2, amended. For every batch whose bodies contain no line feed and
    each of the methods gzip, deflate, bz2 and uncompressed (and any other
    method string, which is written and read as uncompressed), the writer
    produces bytes, raising nothing, and decompressing them with the
    method's algorithm and splitting on newlines gives back the bodies in
    the order of the batch; for gzip, provided the clock is a time the
    header of the member can hold (from 1970 up to 2**32 seconds later). *)
Theorem batch_round_trip (dir method : string) (batch : list string)
    (world : World R) :
  Forall (fun body => has_newline body = false) batch ->
  stampable method (clock world) ->
  exists data : string,
    WriteToGCS_payload (mkWriteToGCS dir method) batch world = (inr data, world)
    /\ read_back method data = Some batch.
Proof.
  intros Hclean Hclock. eexists. split; [apply payload_encoded, Hclock|].
  unfold read_back. simpl. rewrite decompress_encoded.
  rewrite split_newlines_plain_text by exact Hclean. reflexivity.
Qed.

End round_trip.

Global Instance stored_ok : CompressionOk (C:=stored).
Proof.
  split; intros data.
  - vm_compute. destruct data; reflexivity.
  - vm_compute. destruct data; reflexivity.
  - reflexivity.
Qed.

(** A batch of two records read back from its gzip member. *)
Lemma batch_round_trip_witness :
  Forall (fun body => has_newline body = false) ["a"; "b"]
  /\ stampable "gzip" (clock (world0 7 5))
  /\ exists data : string,
       WriteToGCS_payload (R:=Z) (C:=stored) (mkWriteToGCS "gs://b/out" "gzip")
         ["a"; "b"] (world0 7 5) = (inr data, world0 7 5)
       /\ read_back (C:=stored) "gzip" data = Some ["a"; "b"].
Proof.
  assert (Hclean : Forall (fun body => has_newline body = false) ["a"; "b"])
    by (repeat constructor).
  assert (Hclock : stampable "gzip" (clock (world0 7 5)))
    by (intros _; simpl; lia).
  split; [exact Hclean|]. split; [exact Hclock|].
  exact (@batch_round_trip Z stored stored_ok "gs://b/out" "gzip" ["a"; "b"]
           (world0 7 5) Hclean Hclock).
Defined.

(** C2, as stated, fails on a body that contains a line feed: the batch of
    the single body ["a\nb"] is written, uncompressed, as the bytes
    ["a\nb\n"], the same bytes as the batch of the two bodies ["a"] and
    ["b"], and reading them back gives two records. *)
Lemma newline_in_body_breaks_round_trip :
  let body := "a" +:+ NL +:+ "b" in
  let self := mkWriteToGCS "gs://b/out" "uncompressed" in
  WriteToGCS_payload (R:=Z) (C:=stored) self [body] (world0 7 5)
    = (inr ("a" +:+ NL +:+ "b" +:+ NL), world0 7 5)
  /\ WriteToGCS_payload (R:=Z) (C:=stored) self ["a"; "b"] (world0 7 5)
    = (inr ("a" +:+ NL +:+ "b" +:+ NL), world0 7 5)
  /\ read_back (C:=stored) "uncompressed" ("a" +:+ NL +:+ "b" +:+ NL)
    = Some ["a"; "b"]
  /\ Some ["a"; "b"] <> Some [body].
Proof.
  repeat split; try reflexivity. discriminate.
Qed.

(** ** Retrying a write *)

Section retry.
Context {R : Type} {C : Compression} {Cok : CompressionOk}.

(** What one call of [process] does to the world. *)
Lemma process_outcome (self : WriteToGCS) (key_value : Z * list string)
    (w : window.IntervalWindow) (world : World R) :
  WriteToGCS_process self key_value w world
  = match WriteToGCS_filename self key_value.1 w with
    | inl e => (inl e, world)
    | inr target =>
      if String.eqb (compression_method self) "gzip"
         && negb (in_header_range (clock world))
      then (inl struct_error, with_object world target.1 gzip.preamble target.2)
      else
        (inr tt,
         with_object world target.1
           (encoded (compression_method self) (clock world) key_value.2)
           target.2)
    end.
Proof.
  destruct key_value as [shard_id batch].
  unfold WriteToGCS_process, bind, lift. simpl.
  destruct (WriteToGCS_filename self shard_id w) as [e|target]; [reflexivity|].
  rewrite body_outcome.
  destruct (String.eqb (compression_method self) "gzip"
            && negb (in_header_range (clock world))); reflexivity.
Qed.

Lemma process_outcome_stampable (self : WriteToGCS)
    (key_value : Z * list string) (w : window.IntervalWindow)
    (world : World R) :
  stampable (compression_method self) (clock world) ->
  WriteToGCS_process self key_value w world
  = match WriteToGCS_filename self key_value.1 w with
    | inl e => (inl e, world)
    | inr target =>
      (inr tt,
       with_object world target.1
         (encoded (compression_method self) (clock world) key_value.2)
         target.2)
    end.
Proof.
  intros Hclock. rewrite process_outcome.
  destruct (String.eqb_spec (compression_method self) "gzip") as [Hm|_];
    [|reflexivity].
  apply Hclock, in_header_range_spec in Hm. rewrite Hm. reflexivity.
Qed.



(** Two gzip members written at different seconds differ in the header,
    whatever the deflate implementation. *)
Lemma gzip_member_shows_clock (data : string) :
  gzip.member 0 data <> gzip.member 1 data.
Proof.
  unfold gzip.member, gzip.header.
  rewrite !str_app_cons. intros Heq. inversion Heq.
Qed.

End retry.



(** ** The pipeline as a whole *)

Section whole_pipeline.
Context {R : Type} {RS : RandomSource R} {C : Compression}.

Lemma logged_logged (w : World R) (l1 l2 : list string) :
  logged (logged w l1) l2 = logged w (l1 ++ l2).
Proof. unfold logged. simpl. rewrite <- (assoc_L (++)). reflexivity. Qed.

Lemma step_logged (label : string) (w : World R) :
  step label w = (inr tt, logged w [label]).
Proof. reflexivity. Qed.

Lemma random_randint_empty (a b : Z) (w : World R) :
  b < a ->
  random_randint a b w = (inl (ValueError "empty range for randrange()"), w).
Proof.
  intros Hba. unfold random_randint, random_randrange.
  destruct (Z.gtb_spec (b + 1 - a) 0) as [Hw|Hw]; [lia | reflexivity].
Qed.

(** The draw does not look at the log, and leaves it as it is. *)
Lemma random_randint_logged (a b : Z) (w : World R) (labels : list string) :
  random_randint a b (logged w labels)
  = let '(r, w') := random_randint a b w in (r, logged w' labels).
Proof.
  unfold random_randint, random_randrange, logged. simpl.
  destruct (b + 1 - a >? 0); [|reflexivity].
  destruct (_randbelow (b + 1 - a) (rng w)) as [r g]. reflexivity.
Qed.

(** The draw changes the random source only. *)
Lemma random_randint_frame (a b : Z) (w : World R) :
  let w' := (random_randint a b w).2 in
  clock w' = clock w /\ gcs w' = gcs w /\ log w' = log w.
Proof.
  unfold random_randint, random_randrange.
  destruct (b + 1 - a >? 0); [|repeat split; reflexivity].
  destruct (_randbelow (b + 1 - a) (rng w)) as [r g]. repeat split; reflexivity.
Qed.

(** The element-wise steps in the order of the source. *)
Lemma expand_element_steps (self : GroupMessagesByFixedWindows)
    (fn : window.FixedWindows) (payload : string) (t : Z) (w : World R) :
  expand_element self fn (payload, t) w
  = if utf8_valid payload then
      match random_randint 0 (num_shards self - 1) (logged w [W_; D_; K_]) with
      | (inr k, w') => (inr (mkWindowed (k, payload) t (window.assign fn t)), w')
      | (inl e, w') => (inl e, w')
      end
    else (inl UnicodeDecodeError, logged w [W_; D_]).
Proof.
  unfold expand_element, add_key, bind, lift, ret, step, logged,
    DecodeMessage_process, bytes_decode, W_, D_, K_. simpl.
  rewrite <- !(assoc_L (++)). simpl.
  destruct (utf8_valid payload); [|reflexivity].
  match goal with
  | |- context [random_randint ?a ?b ?w0] =>
    destruct (random_randint a b w0) as [[e|k] w']; reflexivity
  end.
Qed.

(** The same steps with the decoder first, as the specification orders
    them. *)
Lemma spec_expand_element_steps (self : GroupMessagesByFixedWindows)
    (fn : window.FixedWindows) (payload : string) (t : Z) (w : World R) :
  spec_expand_element self fn (payload, t) w
  = if utf8_valid payload then
      match random_randint 0 (num_shards self - 1) (logged w [D_; W_; K_]) with
      | (inr k, w') => (inr (mkWindowed (k, payload) t (window.assign fn t)), w')
      | (inl e, w') => (inl e, w')
      end
    else (inl UnicodeDecodeError, logged w [D_]).
Proof.
  unfold spec_expand_element, add_key, bind, lift, ret, step, logged,
    DecodeMessage_process, bytes_decode, W_, D_, K_. simpl.
  destruct (utf8_valid payload); [|reflexivity].
  rewrite <- !(assoc_L (++)). simpl.
  match goal with
  | |- context [random_randint ?a ?b ?w0] =>
    destruct (random_randint a b w0) as [[e|k] w']; reflexivity
  end.
Qed.

(** C5, amended. Each message is first put into its fixed window and then
    decoded, also when decoding fails; the key step follows.  The order
    does not show in the outcome: the element produced (or the exception
    raised), the random source, the clock and the store are those of the
    composition with the decoder first. *)
Theorem window_precedes_decoder (self : GroupMessagesByFixedWindows)
    (fn : window.FixedWindows) (message : string * Z) (w : World R) :
  let code := expand_element self fn message w in
  let reference := spec_expand_element self fn message w in
  (log code.2 = (log w ++ [W_; D_; K_])%list
   \/ log code.2 = (log w ++ [W_; D_])%list
      /\ code.1 = inl UnicodeDecodeError
      /\ log reference.2 = (log w ++ [D_])%list)
  /\ code.1 = reference.1
  /\ rng code.2 = rng reference.2
  /\ clock code.2 = clock reference.2
  /\ gcs code.2 = gcs reference.2.
Proof.
  destruct message as [payload t]. intros code reference.
  unfold code, reference. clear code reference.
  rewrite expand_element_steps, spec_expand_element_steps.
  destruct (utf8_valid payload).
  - rewrite !random_randint_logged.
    pose proof (random_randint_frame 0 (num_shards self - 1) w) as Hframe.
    destruct (random_randint 0 (num_shards self - 1) w) as [[e|k] w'];
      simpl in *; destruct Hframe as (_ & _ & Hlog); rewrite Hlog;
      (split; [left; reflexivity | repeat split; reflexivity]).
  - simpl. split; [right; repeat split; reflexivity | repeat split; reflexivity].
Qed.

Lemma mapM_ext {A B : Type} (f g : A -> M R B) (l : list A) (w : World R) :
  (forall a w, f a w = g a w) -> mapM f l w = mapM g l w.
Proof.
  intros Hfg. revert w. induction l as [|a l IH]; intros w; [reflexivity|].
  simpl. unfold bind. rewrite Hfg.
  destruct (g a w) as [[e|b] w']; [reflexivity|].
  rewrite IH. reflexivity.
Qed.

Lemma process_unknown_method (method dir : string)
    (key_value : Z * list string) (win : window.IntervalWindow) (w : World R) :
  method <> "gzip" -> method <> "deflate" -> method <> "bz2" ->
  WriteToGCS_process (mkWriteToGCS dir method) key_value win w
  = WriteToGCS_process (mkWriteToGCS dir "uncompressed") key_value win w.
Proof.
  intros Hg Hd Hb. rewrite !process_outcome.
  unfold WriteToGCS_filename, encoded. simpl.
  apply String.eqb_neq in Hg, Hd, Hb. rewrite Hg, Hd, Hb. reflexivity.
Qed.

Lemma run_nonpositive_window (dir method : string) (window_interval_sec ns : Z)
    (messages : list (string * Z)) (w : World R) :
  window_interval_sec <= 0 ->
  run dir method window_interval_sec ns messages w
  = (inl (ValueError "The size parameter must be strictly positive."), w).
Proof.
  intros Hle. unfold run, run_construct, bind, lift.
  unfold GroupMessagesByFixedWindows_construct, window.FixedWindows_init. simpl.
  destruct (Z.leb_spec window_interval_sec 0) as [_|Hgt]; [reflexivity | lia].
Qed.

Lemma run_constructed (dir method : string) (window_interval_sec ns : Z) :
  0 < window_interval_sec ->
  run_construct dir method window_interval_sec ns
  = inr (mkPipeline
           (mkGroupMessagesByFixedWindows window_interval_sec ns)
           (window.mkFixedWindows (window_interval_sec * 1000000) 0)
           (mkWriteToGCS dir method)).
Proof.
  intros Hpos. unfold run_construct, GroupMessagesByFixedWindows_construct. simpl.
  rewrite FixedWindows_init_positive by exact Hpos. reflexivity.
Qed.

(** C4, amended. Of the configuration errors, [run] detects the
    non-positive window size before any record is processed: the window
    function refuses it while the pipeline is built, and the world is
    untouched.  With a positive window size the pipeline is built whatever
    [num_shards] and the compression method are.  A non-positive
    [num_shards] then fails at the key step of the first message (here one
    that decodes), and a method other than the three compressed ones is
    never refused: the run is that of ["uncompressed"]. *)
Theorem startup_checks_window_size_only (dir method : string)
    (window_interval_sec ns : Z) :
  (window_interval_sec <= 0 ->
     (exists e, run_construct dir method window_interval_sec ns = inl e)
     /\ forall messages (w : World R),
          run dir method window_interval_sec ns messages w
          = (inl (ValueError "The size parameter must be strictly positive."), w))
  /\ (0 < window_interval_sec ->
      exists p, run_construct dir method window_interval_sec ns = inr p)
  /\ (0 < window_interval_sec -> ns <= 0 ->
      forall payload t rest (w : World R),
        utf8_valid payload = true ->
        run dir method window_interval_sec ns ((payload, t) :: rest) w
        = (inl (ValueError "empty range for randrange()"),
           logged w [W_; D_; K_]))
  /\ (method <> "gzip" -> method <> "deflate" -> method <> "bz2" ->
      forall messages (w : World R),
        run dir method window_interval_sec ns messages w
        = run dir "uncompressed" window_interval_sec ns messages w).
Proof.
  split; [|split; [|split]].
  - intros Hle. split.
    + unfold run_construct, GroupMessagesByFixedWindows_construct,
        window.FixedWindows_init. simpl.
      destruct (Z.leb_spec window_interval_sec 0) as [_|Hgt]; [eauto | lia].
    + intros messages w. apply run_nonpositive_window. exact Hle.
  - intros Hpos. rewrite run_constructed by exact Hpos. eauto.
  - intros Hpos Hns payload t rest w Hvalid.
    unfold run, bind, lift. rewrite run_constructed by exact Hpos.
    unfold run_execute, GroupMessagesByFixedWindows_expand, bind. simpl.
    unfold bind. rewrite expand_element_steps, Hvalid. simpl.
    rewrite random_randint_empty by lia. reflexivity.
  - intros Hg Hd Hb messages w. unfold run, bind, lift.
    destruct (Z_le_gt_dec window_interval_sec 0) as [Hle|Hgt].
    + unfold run_construct, GroupMessagesByFixedWindows_construct,
        window.FixedWindows_init. simpl.
      destruct (Z.leb_spec window_interval_sec 0) as [_|Hgt]; [reflexivity | lia].
    + rewrite !run_constructed by lia.
      unfold run_execute, bind. simpl.
      destruct (GroupMessagesByFixedWindows_expand _ _ messages w)
        as [[e|batches] w']; [reflexivity|].
      rewrite (mapM_ext _ (write_group
         (mkPipeline (mkGroupMessagesByFixedWindows window_interval_sec ns)
            (window.mkFixedWindows (window_interval_sec * 1000000) 0)
            (mkWriteToGCS dir "uncompressed")))); [reflexivity|].
      intros g w0. unfold write_group, bind. simpl.
      apply process_unknown_method; assumption.
Qed.

End whole_pipeline.

(** A run with no shards fails at the key step of its first message. *)
Lemma startup_checks_window_size_only_witness :
  0 < 60 /\ 0 <= 0 /\ utf8_valid "a" = true
  /\ run (R:=Z) (RS:=lcg) (C:=stored) "gs://b/out" "gzip" 60 0 [("a", 0)] (world0 7 0)
     = (inl (ValueError "empty range for randrange()"),
        logged (world0 7 0) [W_; D_; K_]).
Proof.
  assert (H1 : 0 < 60) by lia.
  assert (H2 : 0 <= 0) by lia.
  assert (H3 : utf8_valid "a" = true) by reflexivity.
  split; [exact H1|]. split; [exact H2|]. split; [exact H3|].
  exact (proj1 (proj2 (proj2
           (@startup_checks_window_size_only Z lcg stored "gs://b/out" "gzip" 60 0)))
           H1 H2 "a" 0 [] (world0 7 0) H3).
Defined.

(** C4, as stated, fails: with [num_shards = 0] the pipeline is built, and
    the first failure is the key step of the first record; with the unknown
    method ["gzp"] the pipeline is built and the run completes. *)
Lemma nonpositive_num_shards_passes_startup :
  (exists p, run_construct "gs://b/out" "gzip" 60 0 = inr p)
  /\ (let r := run (R:=Z) (RS:=lcg) (C:=stored) "gs://b/out" "gzip" 60 0
                 [("a", 0)] (world0 7 0) in
      r.1 = inl (ValueError "empty range for randrange()")
      /\ log r.2 = ["Window into fixed intervals"; "Decode message"; "Add key"])
  /\ (exists p, run_construct "gs://b/out" "gzp" 60 5 = inr p)
  /\ (run (R:=Z) (RS:=lcg) (C:=stored) "gs://b/out" "gzp" 60 5
        [("a", 0)] (world0 7 0)).1 = inr tt.
Proof.
  split; [eexists; reflexivity|]. split; [split; reflexivity|].
  split; [eexists; reflexivity|]. vm_compute. reflexivity.
Qed.

(** C5, as stated, fails: the message is put into its window before it is
    decoded, so the steps are not those of the composition with the decoder
    first; a payload that is not UTF-8 has been windowed when decoding
    raises. *)
Lemma decoder_is_not_first :
  let self := mkGroupMessagesByFixedWindows 60 1 in
  let fn := window.mkFixedWindows 60000000 0 in
  let code := expand_element (R:=Z) (RS:=lcg) self fn ("a", 0) (world0 7 0) in
  let reference := spec_expand_element (R:=Z) (RS:=lcg) self fn ("a", 0) (world0 7 0) in
  let malformed := (String (chr 255) "", 0) in
  log code.2 = ["Window into fixed intervals"; "Decode message"; "Add key"]
  /\ log reference.2 = ["Decode message"; "Window into fixed intervals"; "Add key"]
  /\ code <> reference
  /\ expand_element (R:=Z) (RS:=lcg) self fn malformed (world0 7 0)
     = (inl UnicodeDecodeError,
        logged (world0 7 0) ["Window into fixed intervals"; "Decode message"])
  /\ spec_expand_element (R:=Z) (RS:=lcg) self fn malformed (world0 7 0)
     = (inl UnicodeDecodeError, logged (world0 7 0) ["Decode message"]).
Proof.
  intros self fn code reference malformed.
  split; [reflexivity|]. split; [reflexivity|]. split.
  - intros Heq. apply (f_equal (fun r => log r.2)) in Heq.
    vm_compute in Heq. discriminate Heq.
  - split; reflexivity.
Qed.

(** ** The scenario of three messages in one window *)

Section scenario.
Context {R : Type} {RS : RandomSource R} {RSok : RandomSourceOk R}
        {C : Compression}.

Lemma expand_element_single_shard (self : GroupMessagesByFixedWindows)
    (fn : window.FixedWindows) (payload : string) (t : Z) (w : World R) :
  num_shards self = 1 -> utf8_valid payload = true ->
  exists g : R,
    expand_element self fn (payload, t) w
    = (inr (mkWindowed (0, payload) t (window.assign fn t)),
       mkWorld g (clock w) (gcs w) (log w ++ [W_; D_; K_])).
Proof.
  intros Hone Hvalid. rewrite expand_element_steps, Hvalid, Hone.
  destruct (random_randint_range 0 (1 - 1) (logged w [W_; D_; K_]) ltac:(lia))
    as (k & g & Hk & Hrange).
  rewrite Hk. exists g. replace k with 0 by lia. reflexivity.
Qed.

Lemma group_three (win : window.IntervalWindow) (k t1 t2 t3 : Z)
    (a b c : string) :
  GroupByKey [mkWindowed (k, a) t1 win; mkWindowed (k, b) t2 win;
              mkWindowed (k, c) t3 win]
  = [mkWindowed (k, [a; b; c]) (window.end_ win - 1) win].
Proof.
  unfold GroupByKey. cbn [fold_left group_insert value in_window fst snd].
  rewrite decide_True by (split; reflexivity).
  cbn [fold_left group_insert value in_window timestamp fst snd app].
  rewrite decide_True by (split; reflexivity).
  reflexivity.
Qed.

(** C9. With a window of 60 seconds, one shard and no compression, the
    messages ["a"], ["b"], ["c"] published in one window are windowed,
    decoded and keyed in turn, grouped, and written once: the run raises
    nothing and adds to the store exactly the object at
    [{output_directory}/{YYYY}/{MM}/{DD}/logs-{HH:MM}-{HH:MM}-0.json]
    (date and first time from the window start, second time from the
    window end), holding the bytes ["a\nb\nc\n"] with type
    [application/json]. *)
Theorem three_messages_one_object (dir : string) (t1 t2 t3 : Z)
    (d1 d2 : datetime.t) (world : World R) :
  let fn := window.mkFixedWindows 60000000 0 in
  window.assign fn t2 = window.assign fn t1 ->
  window.assign fn t3 = window.assign fn t1 ->
  window.to_utc_datetime (window.start (window.assign fn t1)) = inr d1 ->
  window.to_utc_datetime (window.end_ (window.assign fn t1)) = inr d2 ->
  exists world' : World R,
    run dir "uncompressed" 60 1 [("a", t1); ("b", t2); ("c", t3)] world
    = (inr tt, world')
    /\ gcs world'
       = <[spec_path dir d1 d2 0 "" :=
             mkGcsObject ("a" +:+ NL +:+ "b" +:+ NL +:+ "c" +:+ NL)
               "application/json"]> (gcs world)
    /\ log world'
       = (log world
          ++ [W_; D_; K_; W_; D_; K_; W_; D_; K_; "Group by key"; "Write to GCS"])%list.
Proof.
  intros fn H2 H3 Hd1 Hd2.
  set (self := mkGroupMessagesByFixedWindows 60 1).
  destruct (expand_element_single_shard self fn "a" t1 world eq_refl eq_refl)
    as [g1 E1].
  set (w1 := mkWorld g1 (clock world) (gcs world) (log world ++ [W_; D_; K_])) in E1.
  destruct (expand_element_single_shard self fn "b" t2 w1 eq_refl eq_refl)
    as [g2 E2].
  set (w2 := mkWorld g2 (clock w1) (gcs w1) (log w1 ++ [W_; D_; K_])) in E2.
  destruct (expand_element_single_shard self fn "c" t3 w2 eq_refl eq_refl)
    as [g3 E3].
  set (w3 := mkWorld g3 (clock w2) (gcs w2) (log w2 ++ [W_; D_; K_])) in E3.
  rewrite H2 in E2. rewrite H3 in E3.
  set (win := window.assign fn t1) in *. clearbody win.
  set (batch := mkWindowed (0, ["a"; "b"; "c"]) (window.end_ win - 1) win).
  assert (Hgroups :
    GroupMessagesByFixedWindows_expand self fn
      [("a", t1); ("b", t2); ("c", t3)] world
    = (inr [batch], logged w3 ["Group by key"])).
  { unfold GroupMessagesByFixedWindows_expand, bind. simpl. unfold bind.
    rewrite E1, E2, E3. unfold ret.
    rewrite group_three. reflexivity. }
  eexists. split.
  - unfold run, bind, lift.
    rewrite (run_constructed dir "uncompressed" 60 1) by lia.
    unfold run_execute, bind. cbn [group_transform window_fn writer].
    change (60 * 1000000) with 60000000. fold self. fold fn.
    rewrite Hgroups. cbn [mapM]. unfold bind, write_group, bind, ret.
    cbn [writer value in_window].
    rewrite step_logged.
    rewrite (process_representable (mkWriteToGCS dir "uncompressed") 0
               ["a"; "b"; "c"] win d1 d2 (plain_text ["a"; "b"; "c"]) _ Hd1 Hd2)
      by (apply payload_other; discriminate).
    reflexivity.
  - split; [reflexivity|]. simpl.
    rewrite <- !(assoc_L (++)). reflexivity.
Qed.

End scenario.

(** Three messages published within the minute 22:13 of 14 November 2023. *)
Lemma three_messages_one_object_witness :
  let fn := window.mkFixedWindows 60000000 0 in
  let t1 := 1700000012000000 in
  let t2 := 1700000013500000 in
  let t3 := 1700000039999999 in
  window.assign fn t2 = window.assign fn t1
  /\ window.assign fn t3 = window.assign fn t1
  /\ window.to_utc_datetime (window.start (window.assign fn t1))
     = inr (datetime.mk 2023 11 14 22 13 0 0)
  /\ window.to_utc_datetime (window.end_ (window.assign fn t1))
     = inr (datetime.mk 2023 11 14 22 14 0 0)
  /\ exists world' : World Z,
       run (R:=Z) (RS:=lcg) (C:=stored) "gs://b/out" "uncompressed" 60 1
         [("a", t1); ("b", t2); ("c", t3)] (world0 7 5)
       = (inr tt, world')
       /\ gcs world'
          = {[ "gs://b/out/2023/11/14/logs-22:13-22:14-0.json" :=
                 mkGcsObject ("a" +:+ NL +:+ "b" +:+ NL +:+ "c" +:+ NL)
                   "application/json" ]}.
Proof.
  intros fn t1 t2 t3.
  assert (H2 : window.assign fn t2 = window.assign fn t1) by reflexivity.
  assert (H3 : window.assign fn t3 = window.assign fn t1) by reflexivity.
  assert (Hd1 : window.to_utc_datetime (window.start (window.assign fn t1))
                = inr (datetime.mk 2023 11 14 22 13 0 0)) by reflexivity.
  assert (Hd2 : window.to_utc_datetime (window.end_ (window.assign fn t1))
                = inr (datetime.mk 2023 11 14 22 14 0 0)) by reflexivity.
  split; [exact H2|]. split; [exact H3|]. split; [exact Hd1|]. split; [exact Hd2|].
  destruct (@three_messages_one_object Z lcg lcg_ok stored "gs://b/out" t1 t2 t3
              _ _ (world0 7 5) H2 H3 Hd1 Hd2) as (world' & Hrun & Hgcs & _).
  exists world'. split; [exact Hrun|]. rewrite Hgcs. reflexivity.
Defined.

(** ** Output paths of distinct windows *)

Section calendar.
Import datetime.

Lemma month_day_checked (leapyear : bool) :
  forallb (month_day_ok leapyear) (map Z.of_nat (seq 0 365)) = true.
Proof. destruct leapyear; vm_compute; reflexivity. Qed.

Lemma month_day_spec (n : Z) (leapyear : bool) :
  0 <= n < 365 ->
  let '(m, d) := month_day n leapyear in
  1 <= m <= 12 /\ 1 <= d <= 31
  /\ index _DAYS_BEFORE_MONTH m + b2z ((m >? 2) && leapyear) + d = n + 1.
Proof.
  intros Hn.
  pose proof (month_day_checked leapyear) as Hall.
  rewrite forallb_forall in Hall.
  specialize (Hall n).
  assert (Hin : In n (map Z.of_nat (seq 0 365))).
  { apply in_map_iff. exists (Z.to_nat n). split; [lia|].
    apply in_seq. lia. }
  specialize (Hall Hin). unfold month_day_ok in Hall.
  destruct (month_day n leapyear) as [m d].
  repeat (apply andb_prop in Hall as [Hall ?]). lia.
Qed.

Lemma ord2ymd_month_day (n : Z) :
  _ord2ymd n =
  let r := (n - 1) mod _DI400Y in
  let n400 := (n - 1) / _DI400Y in
  let n100 := r / _DI100Y in
  let r100 := r mod _DI100Y in
  let n4 := r100 / _DI4Y in
  let r4 := r100 mod _DI4Y in
  let n1 := r4 / 365 in
  let r1 := r4 mod 365 in
  let year := n400 * 400 + 1 + n100 * 100 + n4 * 4 + n1 in
  if (n1 =? 4) || (n100 =? 4) then (year - 1, 12, 31)
  else let '(m, d) := month_day r1 ((n1 =? 3) && (negb (n4 =? 24) || (n100 =? 3))) in
       (year, m, d).
Proof.
  unfold _ord2ymd, month_day. cbv zeta.
  destruct ((_ =? 4) || (_ =? 4)); [reflexivity|].
  match goal with |- context [if ?c then _ else _] => destruct c end; reflexivity.
Qed.

Lemma ord2ymd_inverse (n : Z) :
  let '(y, m, d) := _ord2ymd n in
  _ymd2ord y m d = n /\ 1 <= m <= 12 /\ 1 <= d <= 31.
Proof.
  rewrite ord2ymd_month_day. cbv zeta.
  unfold _DI400Y, _DI100Y, _DI4Y.
  set (q := (n - 1) / 146097).
  set (r := (n - 1) mod 146097).
  assert (Hn : n - 1 = 146097 * q + r /\ 0 <= r < 146097).
  { unfold q, r. pose proof (Z.div_mod (n - 1) 146097 ltac:(lia)).
    pose proof (Z.mod_pos_bound (n - 1) 146097 ltac:(lia)). lia. }
  clearbody q r.
  set (n100 := r / 36524). set (r100 := r mod 36524).
  assert (H100 : r = 36524 * n100 + r100 /\ 0 <= r100 < 36524 /\ 0 <= n100 <= 4).
  { unfold n100, r100. Z.div_mod_to_equations. lia. }
  clearbody n100 r100.
  set (n4 := r100 / 1461). set (r4 := r100 mod 1461).
  assert (H4 : r100 = 1461 * n4 + r4 /\ 0 <= r4 < 1461 /\ 0 <= n4 <= 24).
  { unfold n4, r4. Z.div_mod_to_equations. lia. }
  clearbody n4 r4.
  set (n1 := r4 / 365). set (r1 := r4 mod 365).
  assert (H1 : r4 = 365 * n1 + r1 /\ 0 <= r1 < 365 /\ 0 <= n1 <= 4).
  { unfold n1, r1. Z.div_mod_to_equations. lia. }
  clearbody n1 r1.
  destruct Hn as (Hn & Hr). destruct H100 as (H100 & Hr100 & Hn100).
  destruct H4 as (H4 & Hr4 & Hn4). destruct H1 as (H1 & Hr1 & Hn1).
  destruct ((n1 =? 4) || (n100 =? 4)) eqn:Hlast.
  - (* the last day of a leap year *)
    split; [|lia].
    unfold _ymd2ord, _days_before_year, _days_before_month, _is_leap.
    change (index _DAYS_BEFORE_MONTH 12) with 334. change (12 >? 2) with true.
    cbv zeta. simpl andb.
    apply orb_prop in Hlast.
    set (y := q * 400 + 1 + n100 * 100 + n4 * 4 + n1 - 1).
    assert (Hy : y mod 4 = 0 /\ (y mod 100 <> 0 \/ y mod 400 = 0)
                 /\ (y - 1) * 365 + (y - 1) / 4 - (y - 1) / 100 + (y - 1) / 400 + 366 = n).
    { unfold y. destruct Hlast as [E|E]; apply Z.eqb_eq in E;
        Z.div_mod_to_equations; lia. }
    destruct Hy as (Hy4 & Hy100 & Hdays).
    rewrite Hy4. simpl.
    destruct (Z.eqb_spec (y mod 100) 0) as [E100|E100]; simpl.
    + destruct (Z.eqb_spec (y mod 400) 0) as [E400|E400]; simpl; lia.
    + lia.
  - apply orb_false_elim in Hlast as [Hn1' Hn100'].
    apply Z.eqb_neq in Hn1', Hn100'.
    set (leapyear := (n1 =? 3) && (negb (n4 =? 24) || (n100 =? 3))).
    pose proof (month_day_spec r1 leapyear ltac:(lia)) as Hmd.
    destruct (month_day r1 leapyear) as [m d].
    destruct Hmd as (Hm & Hd & Hsum).
    split; [|split; assumption].
    set (y := q * 400 + 1 + n100 * 100 + n4 * 4 + n1).
    assert (Hleap : _is_leap y = leapyear).
    { unfold _is_leap, leapyear, y.
      destruct (Z.eqb_spec n1 3) as [E1|E1];
      destruct (Z.eqb_spec n4 24) as [E4|E4];
      destruct (Z.eqb_spec n100 3) as [E100|E100]; simpl;
      repeat match goal with
             | |- context [?a =? 0] => destruct (Z.eqb_spec a 0)
             end; simpl; try reflexivity; exfalso;
      Z.div_mod_to_equations; lia. }
    unfold _ymd2ord, _days_before_month. rewrite Hleap.
    assert (Hdays : _days_before_year y = n - 1 - r1).
    { unfold _days_before_year, y. cbv zeta. Z.div_mod_to_equations. lia. }
    lia.
Qed.

Lemma days_before_month_range (m : Z) :
  1 <= m <= 12 -> 0 <= index _DAYS_BEFORE_MONTH m <= 334.
Proof.
  intros Hm.
  assert (Hcases : m = 1 \/ m = 2 \/ m = 3 \/ m = 4 \/ m = 5 \/ m = 6 \/ m = 7
                   \/ m = 8 \/ m = 9 \/ m = 10 \/ m = 11 \/ m = 12) by lia.
  repeat (destruct Hcases as [->|Hcases]; [vm_compute; split; discriminate|]).
  subst m. vm_compute. split; discriminate.
Qed.

Lemma ord2ymd_year_range (n : Z) :
  0 < n <= _MAXORDINAL ->
  let '(y, m, d) := _ord2ymd n in 1 <= y <= 9999.
Proof.
  intros Hn. pose proof (ord2ymd_inverse n) as Hinv.
  destruct (_ord2ymd n) as [[y m] d]. destruct Hinv as (Hord & Hm & Hd).
  unfold _MAXORDINAL in Hn.
  pose proof (days_before_month_range m Hm) as Hdbm.
  unfold _ymd2ord, _days_before_month, _days_before_year in Hord. cbv zeta in Hord.
  assert (Hb : 0 <= b2z ((m >? 2) && _is_leap y) <= 1)
    by (destruct ((m >? 2) && _is_leap y); simpl; lia).
  Z.div_mod_to_equations. lia.
Qed.

(** The fields of a datetime determine the minute it lies in. *)
Lemma datetime_minute (micros : Z) (dt : datetime.t) :
  epoch_plus_microseconds micros = inr dt ->
  1 <= year dt <= 9999 /\ 1 <= month dt <= 12 /\ 1 <= day dt <= 31
  /\ 0 <= hour dt < 24 /\ 0 <= minute dt < 60
  /\ hour dt * 60 + minute dt = (micros / 60000000) mod 1440
  /\ micros / 60000000
     = (_ymd2ord (year dt) (month dt) (day dt) - epoch_ordinal) * 1440
       + hour dt * 60 + minute dt.
Proof.
  unfold epoch_plus_microseconds. cbv zeta.
  set (ordinal := epoch_ordinal + micros / 86400000000).
  destruct ((0 <? ordinal) && (ordinal <=? _MAXORDINAL)) eqn:Hrange; [|discriminate].
  apply andb_prop in Hrange as [Hlo Hhi].
  apply Z.ltb_lt in Hlo. apply Z.leb_le in Hhi.
  pose proof (ord2ymd_inverse ordinal) as Hinv.
  pose proof (ord2ymd_year_range ordinal ltac:(lia)) as Hyear.
  destruct (_ord2ymd ordinal) as [[y m] d].
  destruct Hinv as (Hord & Hm & Hd).
  intros Hdt. injection Hdt as <-. simpl.
  rewrite Hord. unfold ordinal, epoch_ordinal.
  repeat split; try lia; Z.div_mod_to_equations; lia.
Qed.
End calendar.

Section paths.
Import datetime.

Lemma byte_val_chr (n : Z) : 0 <= n < 256 -> byte_val (chr n) = n.
Proof.
  intros Hn. unfold byte_val, chr.
  rewrite Z.mod_small by lia.
  rewrite N_ascii_embedding by lia. lia.
Qed.

Lemma digit_inj (a b : Z) : 0 <= a < 10 -> 0 <= b < 10 -> digit a = digit b -> a = b.
Proof.
  intros Ha Hb Heq. apply (f_equal byte_val) in Heq.
  unfold digit in Heq. rewrite !byte_val_chr in Heq by lia. lia.
Qed.

Lemma pad2_inj (a b : Z) : 0 <= a < 100 -> 0 <= b < 100 -> pad2 a = pad2 b -> a = b.
Proof.
  intros Ha Hb Heq. unfold pad2 in Heq. injection Heq as H1 H0.
  apply digit_inj in H1; [|Z.div_mod_to_equations; lia..].
  apply digit_inj in H0; [|Z.div_mod_to_equations; lia..].
  Z.div_mod_to_equations. lia.
Qed.

Lemma pad4_inj (a b : Z) :
  0 <= a < 10000 -> 0 <= b < 10000 -> pad4 a = pad4 b -> a = b.
Proof.
  intros Ha Hb Heq. unfold pad4, pad2 in Heq. injection Heq as H3 H2 H1 H0.
  apply digit_inj in H3; [|Z.div_mod_to_equations; lia..].
  apply digit_inj in H2; [|Z.div_mod_to_equations; lia..].
  apply digit_inj in H1; [|Z.div_mod_to_equations; lia..].
  apply digit_inj in H0; [|Z.div_mod_to_equations; lia..].
  Z.div_mod_to_equations. lia.
Qed.

Lemma length_pad2 (n : Z) : String.length (pad2 n) = 2%nat.
Proof. reflexivity. Qed.

Lemma length_pad4 (n : Z) : String.length (pad4 n) = 4%nat.
Proof. reflexivity. Qed.

Lemma sep_field (sep f1 f2 r1 r2 : string) :
  String.length f1 = String.length f2 ->
  sep +:+ f1 +:+ r1 = sep +:+ f2 +:+ r2 -> f1 = f2 /\ r1 = r2.
Proof.
  intros Hlen Heq. apply (inj (String.app sep)) in Heq.
  apply (str_app_eq_same_length _ _ _ _ Hlen Heq).
Qed.

(** Two paths under one directory and with one suffix agree only if all
    their fields do. *)
Lemma spec_path_fields (dir suffix : string) (d1 d2 e1 e2 : datetime.t)
    (k k' : Z) :
  spec_path dir d1 d2 k suffix = spec_path dir e1 e2 k' suffix ->
  pad4 (year d1) = pad4 (year e1) /\ pad2 (month d1) = pad2 (month e1)
  /\ pad2 (day d1) = pad2 (day e1)
  /\ pad2 (hour d1) = pad2 (hour e1) /\ pad2 (minute d1) = pad2 (minute e1)
  /\ pad2 (hour d2) = pad2 (hour e2) /\ pad2 (minute d2) = pad2 (minute e2)
  /\ k = k'.
Proof.
  unfold spec_path. intros Heq.
  apply (inj (String.app dir)) in Heq.
  apply sep_field in Heq as [Hy Heq]; [|reflexivity].
  apply sep_field in Heq as [Hm Heq]; [|reflexivity].
  apply sep_field in Heq as [Hd Heq]; [|reflexivity].
  apply sep_field in Heq as [HH Heq]; [|reflexivity].
  apply sep_field in Heq as [HM Heq]; [|reflexivity].
  apply sep_field in Heq as [HH2 Heq]; [|reflexivity].
  apply sep_field in Heq as [HM2 Heq]; [|reflexivity].
  apply (inj (String.app "-")) in Heq.
  apply str_app_inv_tail in Heq. apply (inj pretty) in Heq.
  repeat split; assumption.
Qed.

End paths.

Section injective.
Import datetime.

Lemma filename_inr (self : WriteToGCS) (k : Z) (w : window.IntervalWindow)
    (path mime_type : string) :
  WriteToGCS_filename self k w = inr (path, mime_type) ->
  exists d1 d2 : datetime.t,
    window.to_utc_datetime (window.start w) = inr d1
    /\ window.to_utc_datetime (window.end_ w) = inr d2
    /\ path = spec_path (output_gcs_directory self) d1 d2 k
               (extension (compression_method self)).
Proof.
  intros Hname.
  destruct (window.to_utc_datetime (window.start w)) as [e|d1] eqn:H1.
  { unfold WriteToGCS_filename in Hname. rewrite H1 in Hname. discriminate. }
  destruct (window.to_utc_datetime (window.end_ w)) as [e|d2] eqn:H2.
  { unfold WriteToGCS_filename in Hname. rewrite H1, H2 in Hname. discriminate. }
  rewrite (filename_representable self k w d1 d2 H1 H2) in Hname.
  injection Hname as <- _. exists d1, d2. repeat split; reflexivity.
Qed.

(** Windows of one grid with equal start minute and equal end time of day
    are equal, when they last at least thirty seconds. *)
Lemma grid_windows_minutes (S i j : Z) :
  30000000 <= S ->
  (S * i) / 60000000 = (S * j) / 60000000 ->
  ((S * i + S) / 60000000) mod 1440 = ((S * j + S) / 60000000) mod 1440 ->
  i = j.
Proof.
  intros HS Hstart Hend.
  assert (Hcases : i = j \/ S * i + S <= S * j \/ S * j + S <= S * i) by nia.
  destruct Hcases as [Hij|[Hij|Hij]]; [exact Hij|exfalso..].
  - generalize dependent (S * i). generalize dependent (S * j).
    intros b a Hstart Hend Hij. Z.div_mod_to_equations. lia.
  - generalize dependent (S * i). generalize dependent (S * j).
    intros b a Hstart Hend Hij. Z.div_mod_to_equations. lia.
Qed.

(** From thirty seconds on, distinct windows of one run, or distinct shards,
    never share a file name. *)
Lemma filename_injective_from_30s (self : WriteToGCS) (window_size_sec : Z)
    (fn : window.FixedWindows) (t t' k k' : Z) (path m m' : string) :
  30 <= window_size_sec ->
  window.FixedWindows_init window_size_sec = inr fn ->
  WriteToGCS_filename self k (window.assign fn t) = inr (path, m) ->
  WriteToGCS_filename self k' (window.assign fn t') = inr (path, m') ->
  window.assign fn t = window.assign fn t' /\ k = k'.
Proof.
  intros Hsize Hfn Hname Hname'.
  rewrite FixedWindows_init_positive in Hfn by lia. injection Hfn as <-.
  set (S := window_size_sec * 1000000) in *.
  assert (HS : 30000000 <= S) by (unfold S; lia).
  rewrite !assign_floor in * by lia.
  apply filename_inr in Hname as (d1 & d2 & Hd1 & Hd2 & Hpath).
  apply filename_inr in Hname' as (e1 & e2 & He1 & He2 & Hpath').
  simpl in Hd1, Hd2, He1, He2.
  rewrite Hpath in Hpath'.
  apply spec_path_fields in Hpath'
    as (Hy & Hm & Hd & HH & HM & HH2 & HM2 & Hk).
  apply datetime_minute in Hd1 as (Ry1 & Rm1 & Rd1 & RH1 & RM1 & _ & Hidx1).
  apply datetime_minute in He1 as (Ry1' & Rm1' & Rd1' & RH1' & RM1' & _ & Hidx1').
  apply datetime_minute in Hd2 as (_ & _ & _ & RH2 & RM2 & Hmod2 & _).
  apply datetime_minute in He2 as (_ & _ & _ & RH2' & RM2' & Hmod2' & _).
  apply pad4_inj in Hy; [|lia..].
  apply pad2_inj in Hm; [|lia..]. apply pad2_inj in Hd; [|lia..].
  apply pad2_inj in HH; [|lia..]. apply pad2_inj in HM; [|lia..].
  apply pad2_inj in HH2; [|lia..]. apply pad2_inj in HM2; [|lia..].
  rewrite Hy, Hm, Hd, HH, HM in Hidx1. rewrite <- Hidx1' in Hidx1.
  rewrite HH2, HM2 in Hmod2. rewrite Hmod2' in Hmod2.
  rewrite !(Z.mul_comm _ S) in Hidx1, Hmod2.
  pose proof (grid_windows_minutes S (t / S) (t' / S) HS Hidx1) as Hgrid.
  rewrite Hgrid by (symmetry; exact Hmod2).
  split; [reflexivity | exact Hk].
Qed.


(** Below thirty seconds the bound is missed by every window size: the
    first two windows of the grid get one file name. *)
Lemma windows_below_30s_collide (self : WriteToGCS) (window_size_sec k : Z) :
  0 < window_size_sec < 30 ->
  exists fn : window.FixedWindows,
    window.FixedWindows_init window_size_sec = inr fn
    /\ window.assign fn 0 <> window.assign fn (window_size_sec * 1000000)
    /\ WriteToGCS_filename self k (window.assign fn 0)
       = WriteToGCS_filename self k (window.assign fn (window_size_sec * 1000000)).
Proof.
  intros Hsize. eexists. split; [apply FixedWindows_init_positive; lia|].
  assert (Hcases : exists n : nat, (0 < n < 30)%nat /\ window_size_sec = Z.of_nat n).
  { exists (Z.to_nat window_size_sec). lia. }
  destruct Hcases as (n & Hn & ->).
  do 30 (destruct n as [|n];
    [first [lia | split; [discriminate | reflexivity]]|]).
  lia.
Qed.

End injective.


(** C1 on windows shorter than a minute. With [window_size_sec = 20] the
    timestamps 0 s and 20 s fall in the distinct windows [[0 s, 20 s)] and
    [[20 s, 40 s)], and for the same shard both get the file name
    [.../1970/01/01/logs-00:00-00:00-0.json.gz]: the times are formatted to
    the minute.  In a run over one message in each window the second write
    replaces the first, and the store ends with one object holding the
    second message only. *)
Theorem sub_minute_windows_share_a_path :
  let self := mkWriteToGCS "gs://b/out" "gzip" in
  let path := "gs://b/out/1970/01/01/logs-00:00-00:00-0.json.gz" in
  exists fn : window.FixedWindows,
    window.FixedWindows_init 20 = inr fn
    /\ window.assign fn 0 = window.mkIntervalWindow 0 20000000
    /\ window.assign fn 20000000 = window.mkIntervalWindow 20000000 40000000
    /\ (window.assign fn 0, 0) <> (window.assign fn 20000000, 0)
    /\ WriteToGCS_filename self 0 (window.assign fn 0)
       = inr (path, "application/gzip")
    /\ WriteToGCS_filename self 0 (window.assign fn 20000000)
       = inr (path, "application/gzip")
    /\ (let r := run (R:=Z) (RS:=lcg) (C:=stored) "gs://b/out" "gzip" 20 1
                   [("a", 0); ("b", 20000000)] (world0 7 5) in
        r.1 = inr tt
        /\ gcs r.2
           = {[ path := mkGcsObject (gzip.member (C:=stored) 5 ("b" +:+ NL))
                          "application/gzip" ]}).
Proof.
  intros self path. eexists. split; [reflexivity|].
  split; [reflexivity|]. split; [reflexivity|].
  split; [intros Heq; discriminate Heq|].
  split; [reflexivity|]. split; [reflexivity|].
  split; [vm_compute; reflexivity|].
  apply map_eq. intros p.
  destruct (decide (p = path)) as [->|Hne].
  - rewrite lookup_singleton_eq. vm_compute. reflexivity.
  - rewrite lookup_singleton_ne by congruence.
    assert (Hrun : gcs (run (R:=Z) (RS:=lcg) (C:=stored) "gs://b/out" "gzip" 20 1
                          [("a", 0); ("b", 20000000)] (world0 7 5)).2
                   = <[path := mkGcsObject (gzip.member (C:=stored) 5 ("b" +:+ NL))
                                 "application/gzip"]>
                       (<[path := mkGcsObject (gzip.member (C:=stored) 5 ("a" +:+ NL))
                                    "application/gzip"]> ∅))
      by reflexivity.
    rewrite Hrun, !lookup_insert_ne by congruence. apply lookup_empty.
Qed.

(** ** The calendar range of the writer *)

Section calendar_range.
Context {R : Type} {C : Compression}.

Lemma to_utc_datetime_in_calendar (micros : Z) :
  if in_calendar micros then
    exists dt : datetime.t, window.to_utc_datetime micros = inr dt
  else
    window.to_utc_datetime micros = inl (OverflowError "date value out of range").
Proof.
  unfold window.to_utc_datetime, datetime.epoch_plus_microseconds, in_calendar,
    datetime_min_micros, datetime_end_micros, datetime.epoch_ordinal,
    datetime._MAXORDINAL.
  cbv zeta.
  set (days := micros / 86400000000).
  assert (Hdays : 86400000000 * days <= micros < 86400000000 * days + 86400000000).
  { unfold days. pose proof (Z.div_mod micros 86400000000 ltac:(lia)).
    pose proof (Z.mod_pos_bound micros 86400000000 ltac:(lia)). lia. }
  clearbody days.
  destruct (Z.leb_spec (-62135596800000000) micros) as [Hlo|Hlo];
    destruct (Z.ltb_spec micros 253402300800000000) as [Hhi|Hhi]; simpl.
  - destruct (Z.ltb_spec 0 (719163 + days)) as [_|H0]; [|lia].
    destruct (Z.leb_spec (719163 + days) 3652059) as [_|H1]; [|lia].
    simpl. destruct (datetime._ord2ymd (719163 + days)) as [[y m] d]. eauto.
  - destruct (Z.leb_spec (719163 + days) 3652059) as [H1|_]; [lia|].
    rewrite andb_false_r. reflexivity.
  - destruct (Z.ltb_spec 0 (719163 + days)) as [H0|_]; [lia|]. reflexivity.
  - lia.
Qed.

Lemma filename_in_calendar (self : WriteToGCS) (shard_id : Z)
    (w : window.IntervalWindow) :
  in_calendar (window.start w) && in_calendar (window.end_ w) = true ->
  exists path : string,
    WriteToGCS_filename self shard_id w
    = inr (path, mime (compression_method self)).
Proof.
  intros Hcal. apply andb_prop in Hcal as [Hs He].
  pose proof (to_utc_datetime_in_calendar (window.start w)) as Hs'.
  pose proof (to_utc_datetime_in_calendar (window.end_ w)) as He'.
  rewrite Hs in Hs'. rewrite He in He'.
  destruct Hs' as [d1 Hd1]. destruct He' as [d2 Hd2].
  rewrite (filename_representable self shard_id w d1 d2 Hd1 Hd2).
  eexists. reflexivity.
Qed.

Lemma process_in_calendar (self : WriteToGCS) (key_value : Z * list string)
    (w : window.IntervalWindow) (world : World R) :
  in_calendar (window.start w) && in_calendar (window.end_ w) = true ->
  stampable (compression_method self) (clock world) ->
  exists path : string,
    WriteToGCS_process self key_value w world
    = (inr tt,
       with_object world path
         (encoded (compression_method self) (clock world) key_value.2)
         (mime (compression_method self))).
Proof.
  intros Hcal Hclock.
  destruct (filename_in_calendar self key_value.1 w Hcal) as [path Hpath].
  rewrite process_outcome_stampable by exact Hclock.
  rewrite Hpath. eexists. reflexivity.
Qed.

(** The writer raises [OverflowError], writing nothing, exactly when the
    start or the end of the window is not an instant of the calendar.
    Otherwise it stores one object with the type of the method: the
    encoded batch, raising nothing; or, for gzip when the clock is not a
    time the header can hold, the four bytes written before the
    modification time, raising [struct.error]. *)
Theorem process_raises_outside_calendar (self : WriteToGCS)
    (key_value : Z * list string) (w : window.IntervalWindow)
    (world : World R) :
  if in_calendar (window.start w) && in_calendar (window.end_ w) then
    exists path : string,
      WriteToGCS_process self key_value w world
      = if String.eqb (compression_method self) "gzip"
           && negb (in_header_range (clock world))
        then
          (inl struct_error,
           with_object world path gzip.preamble (mime (compression_method self)))
        else
          (inr tt,
           with_object world path
             (encoded (compression_method self) (clock world) key_value.2)
             (mime (compression_method self)))
  else
    WriteToGCS_process self key_value w world
    = (inl (OverflowError "date value out of range"), world).
Proof.
  destruct (in_calendar (window.start w) && in_calendar (window.end_ w)) eqn:Hcal.
  - destruct (filename_in_calendar self key_value.1 w Hcal) as [path Hpath].
    exists path. rewrite process_outcome, Hpath. reflexivity.
  - rewrite process_outcome. unfold WriteToGCS_filename.
    pose proof (to_utc_datetime_in_calendar (window.start w)) as Hs.
    pose proof (to_utc_datetime_in_calendar (window.end_ w)) as He.
    destruct (in_calendar (window.start w)).
    + destruct Hs as [d1 Hd1]. simpl in Hcal. rewrite Hcal in He.
      rewrite Hd1, He. reflexivity.
    + rewrite Hs. reflexivity.
Qed.

(** One call of the writer changes at most one path of the store, and
    neither the random source, the clock nor the log. *)
Theorem process_touches_one_path (self : WriteToGCS)
    (key_value : Z * list string) (w : window.IntervalWindow)
    (world : World R) :
  let after := (WriteToGCS_process self key_value w world).2 in
  rng after = rng world /\ clock after = clock world /\ log after = log world
  /\ forall p q : string,
       gcs after !! p <> gcs world !! p ->
       gcs after !! q <> gcs world !! q -> p = q.
Proof.
  rewrite process_outcome.
  destruct (WriteToGCS_filename self key_value.1 w) as [e|[path mime_type]];
    [simpl; repeat split; try reflexivity; intros p q Hp; congruence|].
  destruct (String.eqb (compression_method self) "gzip"
            && negb (in_header_range (clock world))); simpl.
  all: repeat split; try reflexivity; intros p q Hp Hq.
  all: destruct (decide (p = path)) as [->|Hnp];
    [|rewrite lookup_insert_ne in Hp by congruence; congruence].
  all: destruct (decide (q = path)) as [->|Hnq];
    [reflexivity | rewrite lookup_insert_ne in Hq by congruence; congruence].
Qed.

End calendar_range.

(** ** Date directories, shards and neighbouring windows *)

Section directories.

Lemma datetime_day (micros : Z) (dt : datetime.t) :
  window.to_utc_datetime micros = inr dt ->
  datetime._ord2ymd (datetime.epoch_ordinal + micros / 86400000000)
  = (datetime.year dt, datetime.month dt, datetime.day dt)
  /\ datetime._ymd2ord (datetime.year dt) (datetime.month dt) (datetime.day dt)
     = datetime.epoch_ordinal + micros / 86400000000.
Proof.
  unfold window.to_utc_datetime, datetime.epoch_plus_microseconds. cbv zeta.
  set (ordinal := datetime.epoch_ordinal + micros / 86400000000).
  destruct ((0 <? ordinal) && (ordinal <=? datetime._MAXORDINAL)); [|discriminate].
  pose proof (ord2ymd_inverse ordinal) as Hinv.
  destruct (datetime._ord2ymd ordinal) as [[y m] d].
  destruct Hinv as (Hord & _).
  intros Hdt. injection Hdt as <-. simpl. split; [reflexivity | exact Hord].
Qed.

(** Two instants get the same date directory [%Y/%m/%d] exactly when they
    lie on the same UTC day. *)
Theorem date_dir_is_the_utc_day (a b : Z) (da db : datetime.t) :
  window.to_utc_datetime a = inr da ->
  window.to_utc_datetime b = inr db ->
  datetime.strftime_Ymd da = datetime.strftime_Ymd db
  <-> a / 86400000000 = b / 86400000000.
Proof.
  intros Ha Hb.
  pose proof (datetime_day a da Ha) as [Hya Hoa].
  pose proof (datetime_day b db Hb) as [Hyb Hob].
  pose proof (datetime_minute a da Ha) as (Ry & Rm & Rd & _).
  pose proof (datetime_minute b db Hb) as (Ry' & Rm' & Rd' & _).
  split.
  - unfold datetime.strftime_Ymd. intros Heq.
    apply str_app_eq_same_length in Heq as [Hy Heq]; [|reflexivity].
    apply (inj (String.app "/")) in Heq.
    apply str_app_eq_same_length in Heq as [Hm Heq]; [|reflexivity].
    apply (inj (String.app "/")) in Heq.
    apply pad4_inj in Hy; [|lia..].
    apply pad2_inj in Hm; [|lia..]. apply pad2_inj in Heq; [|lia..].
    rewrite Hy, Hm, Heq in Hoa. lia.
  - intros Hday. rewrite Hday in Hya. rewrite Hya in Hyb.
    injection Hyb as Hy Hm Hd. unfold datetime.strftime_Ymd. congruence.
Qed.

(** Whatever the windows, two file names that agree belong to one shard. *)
Theorem shards_never_share_a_path (self : WriteToGCS) (k k' : Z)
    (w w' : window.IntervalWindow) (path m m' : string) :
  WriteToGCS_filename self k w = inr (path, m) ->
  WriteToGCS_filename self k' w' = inr (path, m') ->
  k = k'.
Proof.
  intros Hname Hname'.
  apply filename_inr in Hname as (d1 & d2 & _ & _ & Hpath).
  apply filename_inr in Hname' as (e1 & e2 & _ & _ & Hpath').
  rewrite Hpath in Hpath'.
  apply spec_path_fields in Hpath'. tauto.
Qed.

(** Windows have the configured length; a window starts where the one
    before it ends, also before the epoch; a window's start lies in the
    window itself; and later timestamps never get earlier windows. *)
Theorem windows_are_adjacent (window_size_sec : Z) (fn : window.FixedWindows)
    (t : Z) :
  0 < window_size_sec ->
  window.FixedWindows_init window_size_sec = inr fn ->
  let w := window.assign fn t in
  let size := window_size_sec * 1000000 in
  window.end_ w - window.start w = size
  /\ window.assign fn (window.start w) = w
  /\ window.assign fn (window.end_ w)
     = window.mkIntervalWindow (window.end_ w) (window.end_ w + size)
  /\ window.assign fn (window.start w - 1)
     = window.mkIntervalWindow (window.start w - size) (window.start w)
  /\ (forall t' : Z,
        t <= t' -> window.start w <= window.start (window.assign fn t')).
Proof.
  intros Hpos Hfn w size.
  rewrite FixedWindows_init_positive in Hfn by exact Hpos. injection Hfn as <-.
  fold size in w |- *.
  assert (Hsize : 0 < size) by (unfold size; lia).
  unfold w. rewrite !assign_floor by exact Hsize. simpl.
  set (q := t / size).
  assert (Hq : size * q <= t < size * q + size).
  { unfold q. pose proof (Z.div_mod t size ltac:(lia)).
    pose proof (Z.mod_pos_bound t size Hsize). lia. }
  clearbody q.
  assert (H0 : q * size / size = q) by (apply Z.div_mul; lia).
  assert (H1 : (q * size + size) / size = q + 1).
  { replace (q * size + size) with ((q + 1) * size) by lia. apply Z.div_mul. lia. }
  assert (H2 : (q * size - 1) / size = q - 1).
  { symmetry. apply (Z.div_unique _ size (q - 1) (size - 1)); lia. }
  split; [lia|]. split; [rewrite H0; reflexivity|].
  split; [rewrite H1; f_equal; lia|].
  split; [rewrite H2; f_equal; lia|].
  intros t' Ht'.
  assert (Hmono : q <= t' / size).
  { apply Z.div_le_lower_bound; lia. }
  rewrite Z.sub_0_r.
  pose proof (Z.div_mod t' size ltac:(lia)) as Hdm.
  assert (Hle : q * size <= t' / size * size)
    by (apply Z.mul_le_mono_nonneg_r; lia).
  lia.
Qed.

End directories.

(** ** Grouping by window and key *)

Section grouping.

Lemma lookup_group_insert (w w' : window.IntervalWindow) (k k' : Z) (v : string)
    (groups : list (Windowed (Z * list string))) :
  lookup_group w' k' (group_insert w k v groups)
  = if decide (w = w' /\ k = k') then
      Some (default [] (lookup_group w k groups) ++ [v])%list
    else lookup_group w' k' groups.
Proof.
  induction groups as [|g rest IH]; simpl.
  - destruct (decide (w = w' /\ k = k')); reflexivity.
  - destruct (decide (in_window g = w /\ (value g).1 = k)) as [[Hw Hk]|Hno]; simpl.
    + destruct (decide (w = w' /\ k = k')) as [[<- <-]|Hne].
      * reflexivity.
      * destruct (decide (in_window g = w' /\ (value g).1 = k')) as [[? ?]|_];
          [exfalso; apply Hne; split; congruence | reflexivity].
    + destruct (decide (in_window g = w' /\ (value g).1 = k')) as [[Hw Hk]|Hno'].
      * destruct (decide (w = w' /\ k = k')) as [[? ?]|_];
          [exfalso; apply Hno; split; congruence | reflexivity].
      * exact IH.
Qed.

Lemma group_of_cons (w : window.IntervalWindow) (k : Z)
    (e : Windowed (Z * string)) (pcoll : list (Windowed (Z * string))) :
  group_of w k (e :: pcoll)
  = ((if decide (in_window e = w /\ (value e).1 = k) then [(value e).2] else [])
     ++ group_of w k pcoll)%list.
Proof.
  unfold group_of. rewrite filter_cons.
  destruct (decide (in_window e = w /\ (value e).1 = k)); reflexivity.
Qed.

Lemma lookup_group_fold (w : window.IntervalWindow) (k : Z)
    (pcoll : list (Windowed (Z * string)))
    (groups : list (Windowed (Z * list string))) :
  lookup_group w k
    (fold_left
       (fun groups e => group_insert (in_window e) (value e).1 (value e).2 groups)
       pcoll groups)
  = match lookup_group w k groups, group_of w k pcoll with
    | Some vs, new => Some (vs ++ new)%list
    | None, [] => None
    | None, new => Some new
    end.
Proof.
  revert groups. induction pcoll as [|e pcoll IH]; intros groups.
  - simpl. destruct (lookup_group w k groups) as [vs|]; [|reflexivity].
    unfold group_of. simpl. rewrite app_nil_r. reflexivity.
  - cbn [fold_left]. rewrite IH, lookup_group_insert, group_of_cons.
    destruct (decide (in_window e = w /\ (value e).1 = k)) as [[-> ->]|Hne].
    + destruct (lookup_group _ _ groups) as [vs|]; simpl.
      * rewrite <- (assoc_L (++)). reflexivity.
      * reflexivity.
    + simpl. reflexivity.
Qed.

Lemma group_keys_insert (w : window.IntervalWindow) (k : Z) (v : string)
    (groups : list (Windowed (Z * list string))) :
  map group_key (group_insert w k v groups)
  = if decide ((w, k) ∈ map group_key groups) then map group_key groups
    else (map group_key groups ++ [(w, k)])%list.
Proof.
  induction groups as [|g rest IH].
  - cbn [group_insert map].
    destruct (decide ((w, k) ∈ [])) as [Hin|_]; [|reflexivity].
    apply elem_of_nil in Hin. destruct Hin.
  - cbn [group_insert map].
    assert (Hkey : group_key g = (w, k) <-> in_window g = w /\ (value g).1 = k).
    { unfold group_key. split; [intros Heq; injection Heq; tauto | intros [-> ->]; reflexivity]. }
    destruct (decide (in_window g = w /\ (value g).1 = k)) as [Hyes|Hno].
    + apply Hkey in Hyes.
      destruct (decide ((w, k) ∈ group_key g :: map group_key rest)) as [_|Hnin].
      * cbn [map]. unfold group_key at 1. cbn [in_window value fst].
        rewrite <- Hyes. reflexivity.
      * exfalso. apply Hnin. rewrite Hyes. apply list_elem_of_here.
    + cbn [map]. rewrite IH.
      destruct (decide ((w, k) ∈ map group_key rest)) as [Hin|Hnin];
        destruct (decide ((w, k) ∈ group_key g :: map group_key rest)) as [Hin'|Hnin'];
        try reflexivity.
      * exfalso. apply Hnin'. apply list_elem_of_further. exact Hin.
      * exfalso. apply elem_of_cons in Hin' as [Heq|Hin']; [|tauto].
        apply Hno, Hkey. congruence.
Qed.

Lemma group_keys_NoDup (pcoll : list (Windowed (Z * string)))
    (groups : list (Windowed (Z * list string))) :
  NoDup (map group_key groups) ->
  NoDup (map group_key
    (fold_left
       (fun groups e => group_insert (in_window e) (value e).1 (value e).2 groups)
       pcoll groups)).
Proof.
  revert groups. induction pcoll as [|e pcoll IH]; intros groups Hnd; [exact Hnd|].
  cbn [fold_left]. apply IH. rewrite group_keys_insert.
  destruct (decide (_ ∈ map group_key groups)) as [Hin|Hnin]; [exact Hnd|].
  apply NoDup_app. split; [exact Hnd|]. split.
  - intros x Hx Hx'. apply list_elem_of_singleton in Hx'. subst x. tauto.
  - apply NoDup_singleton.
Qed.

Lemma lookup_group_elem (g : Windowed (Z * list string))
    (groups : list (Windowed (Z * list string))) :
  NoDup (map group_key groups) -> g ∈ groups ->
  lookup_group (in_window g) (value g).1 groups = Some (value g).2.
Proof.
  induction groups as [|h rest IH]; intros Hnd Hin.
  - apply elem_of_nil in Hin. destruct Hin.
  - simpl in Hnd. apply NoDup_cons in Hnd as [Hh Hnd].
    apply elem_of_cons in Hin as [->|Hin]; simpl.
    + rewrite decide_True by (split; reflexivity). reflexivity.
    + destruct (decide (in_window h = in_window g /\ (value h).1 = (value g).1))
        as [[Hw Hk]|Hno]; [|apply IH; assumption].
      exfalso. apply Hh.
      replace (group_key h) with (group_key g) by (unfold group_key; congruence).
      apply list_elem_of_fmap. exists g. split; [reflexivity | exact Hin].
Qed.

Lemma lookup_group_Some (w : window.IntervalWindow) (k : Z) (vs : list string)
    (groups : list (Windowed (Z * list string))) :
  lookup_group w k groups = Some vs ->
  exists g, g ∈ groups /\ in_window g = w /\ (value g).1 = k /\ (value g).2 = vs.
Proof.
  induction groups as [|h rest IH]; simpl; [discriminate|].
  destruct (decide (in_window h = w /\ (value h).1 = k)) as [[Hw Hk]|Hno].
  - intros Heq. injection Heq as <-. exists h.
    split; [apply list_elem_of_here | repeat split; assumption].
  - intros Heq. destruct (IH Heq) as (g & Hin & Hg).
    exists g. split; [apply list_elem_of_further; exact Hin | exact Hg].
Qed.

Lemma GroupByKey_lookup (pcoll : list (Windowed (Z * string)))
    (w : window.IntervalWindow) (k : Z) :
  lookup_group w k (GroupByKey pcoll)
  = match group_of w k pcoll with [] => None | new => Some new end.
Proof. unfold GroupByKey. rewrite lookup_group_fold. reflexivity. Qed.

Lemma GroupByKey_keys_NoDup (pcoll : list (Windowed (Z * string))) :
  NoDup (map group_key (GroupByKey pcoll)).
Proof. apply group_keys_NoDup. apply NoDup_nil_2. Qed.

Lemma GroupByKey_batch (pcoll : list (Windowed (Z * string)))
    (g : Windowed (Z * list string)) :
  g ∈ GroupByKey pcoll ->
  (value g).2 = group_of (in_window g) (value g).1 pcoll /\ (value g).2 <> [].
Proof.
  intros Hg.
  pose proof (lookup_group_elem g _ (GroupByKey_keys_NoDup pcoll) Hg) as Hg'.
  rewrite GroupByKey_lookup in Hg'.
  destruct (group_of (in_window g) (value g).1 pcoll) as [|v vs];
    [discriminate|].
  injection Hg' as <-. split; [reflexivity | discriminate].
Qed.

Lemma GroupByKey_covers (pcoll : list (Windowed (Z * string)))
    (e : Windowed (Z * string)) :
  e ∈ pcoll ->
  exists g, g ∈ GroupByKey pcoll /\ in_window g = in_window e
            /\ (value g).1 = (value e).1 /\ (value e).2 ∈ (value g).2.
Proof.
  intros He.
  assert (Hin : (value e).2 ∈ group_of (in_window e) (value e).1 pcoll).
  { unfold group_of. apply list_elem_of_fmap. exists e. split; [reflexivity|].
    apply list_elem_of_filter. split; [split; reflexivity | exact He]. }
  pose proof (GroupByKey_lookup pcoll (in_window e) (value e).1) as Hlook.
  destruct (group_of (in_window e) (value e).1 pcoll) as [|v vs] eqn:Hgo.
  - apply elem_of_nil in Hin. destruct Hin.
  - apply lookup_group_Some in Hlook as (g & Hg & Hw & Hk & Hv).
    exists g. rewrite Hv. repeat split; assumption.
Qed.

(** Grouping partitions the keyed elements: no two groups have the same
    window and key; the batch of a group is exactly the values that arrived
    with its window and key, in their order of arrival, and is never empty;
    and every element is in the batch of its window and key. *)
Theorem GroupByKey_partitions (pcoll : list (Windowed (Z * string))) :
  let groups := GroupByKey pcoll in
  NoDup (map group_key groups)
  /\ (forall g, g ∈ groups ->
        (value g).2 = group_of (in_window g) (value g).1 pcoll
        /\ (value g).2 <> [])
  /\ (forall e, e ∈ pcoll ->
        exists g, g ∈ groups /\ in_window g = in_window e
                  /\ (value g).1 = (value e).1 /\ (value e).2 ∈ (value g).2).
Proof.
  intros groups. split; [apply GroupByKey_keys_NoDup|]. split.
  - intros g Hg. apply GroupByKey_batch. exact Hg.
  - intros e He. apply GroupByKey_covers. exact He.
Qed.

Lemma total_values_insert (w : window.IntervalWindow) (k : Z) (v : string)
    (groups : list (Windowed (Z * list string))) :
  total_values (group_insert w k v groups) = S (total_values groups).
Proof.
  induction groups as [|g rest IH]; simpl; [reflexivity|].
  destruct (decide (in_window g = w /\ (value g).1 = k)); simpl.
  - rewrite length_app. simpl. lia.
  - rewrite IH. lia.
Qed.

Lemma GroupByKey_total (pcoll : list (Windowed (Z * string))) :
  total_values (GroupByKey pcoll) = length pcoll.
Proof.
  assert (Hfold : forall groups,
            total_values
              (fold_left
                 (fun groups e =>
                    group_insert (in_window e) (value e).1 (value e).2 groups)
                 pcoll groups)
            = (total_values groups + length pcoll)%nat).
  { induction pcoll as [|e pcoll IH]; intros groups; simpl; [lia|].
    rewrite IH, total_values_insert. lia. }
  apply (Hfold []).
Qed.

Lemma GroupByKey_length_le (pcoll : list (Windowed (Z * string))) :
  (length (GroupByKey pcoll) <= length pcoll)%nat.
Proof.
  rewrite <- (GroupByKey_total pcoll).
  assert (Hne : forall g, g ∈ GroupByKey pcoll -> (value g).2 <> []).
  { intros g Hg. apply (GroupByKey_batch pcoll g Hg). }
  revert Hne. generalize (GroupByKey pcoll). intros groups.
  induction groups as [|g rest IH]; intros Hne; simpl; [lia|].
  assert (Hg : (value g).2 <> []) by (apply Hne, list_elem_of_here).
  assert (Hrest : (length rest <= total_values rest)%nat).
  { apply IH. intros h Hh. apply Hne, list_elem_of_further, Hh. }
  destruct (value g).2; [congruence | simpl; lia].
Qed.

(** Grouping neither drops nor repeats a message: the sizes of the batches
    add up to the number of elements, and there are at most as many groups
    as elements. *)
Theorem GroupByKey_keeps_every_value (pcoll : list (Windowed (Z * string))) :
  total_values (GroupByKey pcoll) = length pcoll
  /\ (length (GroupByKey pcoll) <= length pcoll)%nat.
Proof.
  split; [apply GroupByKey_total | apply GroupByKey_length_le].
Qed.

End grouping.

(** ** Runs over well-formed and over malformed input *)

Section runs.
Context {R : Type} {RS : RandomSource R} {RSok : RandomSourceOk R}
        {C : Compression}.

Lemma expand_element_decodable (self : GroupMessagesByFixedWindows)
    (fn : window.FixedWindows) (payload : string) (t : Z) (w : World R) :
  0 < num_shards self -> utf8_valid payload = true ->
  exists (k : Z) (g : R),
    expand_element self fn (payload, t) w
    = (inr (mkWindowed (k, payload) t (window.assign fn t)),
       mkWorld g (clock w) (gcs w) (log w ++ [W_; D_; K_]))
    /\ 0 <= k < num_shards self.
Proof.
  intros Hns Hvalid. rewrite expand_element_steps, Hvalid.
  destruct (random_randint_range 0 (num_shards self - 1) (logged w [W_; D_; K_])
              ltac:(lia)) as (k & g & Hk & Hrange).
  rewrite Hk. exists k, g. split; [reflexivity | lia].
Qed.

Lemma expand_all_decodable (self : GroupMessagesByFixedWindows)
    (fn : window.FixedWindows) (messages : list (string * Z)) (w : World R) :
  0 < num_shards self ->
  Forall (fun m => utf8_valid m.1 = true) messages ->
  exists (keyed : list (Windowed (Z * string))) (g : R),
    mapM (expand_element self fn) messages w
    = (inr keyed,
       mkWorld g (clock w) (gcs w) (log w ++ element_labels messages))
    /\ Forall2 (fun e m => in_window e = window.assign fn m.2
                           /\ (value e).2 = m.1
                           /\ 0 <= (value e).1 < num_shards self)
         keyed messages.
Proof.
  intros Hns Hvalid. revert w.
  induction Hvalid as [|[payload t] messages Hp _ IH]; intros w.
  - exists [], (rng w). unfold element_labels. simpl. rewrite app_nil_r.
    destruct w. split; [reflexivity | constructor].
  - destruct (expand_element_decodable self fn payload t w Hns Hp)
      as (k & g1 & He & Hk).
    destruct (IH (mkWorld g1 (clock w) (gcs w) (log w ++ [W_; D_; K_])))
      as (keyed & g & Hrest & Hall).
    exists (mkWindowed (k, payload) t (window.assign fn t) :: keyed), g.
    cbn [mapM]. unfold bind at 1. rewrite He. unfold bind at 1. rewrite Hrest.
    unfold ret, element_labels. cbn [map concat clock gcs log].
    rewrite <- (assoc_L (++)). cbn [app].
    split; [reflexivity|]. constructor; [|exact Hall].
    simpl. repeat split; lia.
Qed.

Lemma write_all_in_calendar (p : Pipeline)
    (groups : list (Windowed (Z * list string))) (w : World R) :
  Forall (fun g => in_calendar (window.start (in_window g))
                   && in_calendar (window.end_ (in_window g)) = true) groups ->
  stampable (compression_method (writer p)) (clock w) ->
  exists w' : World R,
    mapM (write_group p) groups w = (inr (map (fun _ => tt) groups), w')
    /\ rng w' = rng w /\ clock w' = clock w
    /\ log w' = (log w ++ replicate (length groups) "Write to GCS")%list.
Proof.
  intros Hcal. revert w. induction Hcal as [|g groups Hg _ IH]; intros w Hclock.
  - exists w. simpl. rewrite app_nil_r. repeat split; reflexivity.
  - destruct (process_in_calendar (writer p) (value g) (in_window g)
                (logged w ["Write to GCS"]) Hg Hclock) as [path Hproc].
    match type of Hproc with _ = (_, ?w1) =>
      destruct (IH w1 Hclock) as (w' & Hrest & Hr & Hc & Hl) end.
    exists w'. cbn [mapM]. unfold bind at 1, write_group at 1, bind at 1.
    rewrite step_logged, Hproc. unfold bind at 1. rewrite Hrest.
    split; [reflexivity|]. rewrite Hr, Hc, Hl. simpl.
    rewrite <- (assoc_L (++)). repeat split; reflexivity.
Qed.

(** A run over well-formed input raises nothing: with a positive window
    size and a positive number of shards, payloads that are valid UTF-8,
    windows within the calendar and, for gzip, a clock that the header of
    a member can hold, every message passes the three element-wise steps,
    the messages are grouped once, and at most one object per message is
    written. *)
Theorem run_of_well_formed_input (dir method : string)
    (window_interval_sec ns : Z) (messages : list (string * Z)) (w : World R) :
  0 < window_interval_sec -> 0 < ns ->
  Forall (fun m => utf8_valid m.1 = true) messages ->
  Forall (fun m => window_in_calendar window_interval_sec m.2 = true) messages ->
  stampable method (clock w) ->
  exists (w' : World R) (writes : nat),
    run dir method window_interval_sec ns messages w = (inr tt, w')
    /\ clock w' = clock w
    /\ (writes <= length messages)%nat
    /\ log w'
       = (log w ++ element_labels messages ++ ["Group by key"]
          ++ replicate writes "Write to GCS")%list.
Proof.
  intros Hws Hns Hvalid Hcal Hstamp.
  set (self := mkGroupMessagesByFixedWindows window_interval_sec ns).
  set (fn := window.mkFixedWindows (window_interval_sec * 1000000) 0).
  destruct (expand_all_decodable self fn messages w Hns Hvalid)
    as (keyed & g & Hexp & Hall).
  set (w1 := mkWorld g (clock w) (gcs w) (log w ++ element_labels messages)) in Hexp.
  set (p := mkPipeline self fn (mkWriteToGCS dir method)).
  assert (Hgroups : Forall (fun g => in_calendar (window.start (in_window g))
                       && in_calendar (window.end_ (in_window g)) = true)
                      (GroupByKey keyed)).
  { apply Forall_forall. intros grp Hgrp.
    destruct (GroupByKey_batch keyed grp Hgrp) as [Hvals Hne].
    destruct (group_of (in_window grp) (value grp).1 keyed) as [|v vs] eqn:Hgo;
      [congruence|].
    assert (Hv : v ∈ group_of (in_window grp) (value grp).1 keyed)
      by (rewrite Hgo; apply list_elem_of_here).
    unfold group_of in Hv. apply list_elem_of_fmap in Hv as (e & _ & He).
    apply list_elem_of_filter in He as [[Hw _] He].
    apply list_elem_of_lookup in He as [i He].
    destruct (Forall2_lookup_l _ _ _ _ _ Hall He) as (m & Hm & Hwm & _).
    rewrite Forall_forall in Hcal.
    specialize (Hcal m (list_elem_of_lookup_2 _ _ _ Hm)).
    unfold window_in_calendar in Hcal. fold fn in Hcal.
    rewrite <- Hw, Hwm. exact Hcal. }
  destruct (write_all_in_calendar p (GroupByKey keyed) (logged w1 ["Group by key"])
              Hgroups Hstamp)
    as (w' & Hwrite & _ & Hclock & Hlog).
  exists w', (length (GroupByKey keyed)).
  split; [|split; [exact Hclock|split]].
  - unfold run, bind, lift. rewrite run_constructed by exact Hws.
    fold self fn p. unfold run_execute, bind.
    change (group_transform p) with self. change (window_fn p) with fn.
    unfold GroupMessagesByFixedWindows_expand, bind.
    rewrite Hexp, step_logged. unfold ret. rewrite Hwrite. reflexivity.
  - pose proof (GroupByKey_length_le keyed) as Hle.
    pose proof (Forall2_length _ _ _ Hall) as Hlen.
    lia.
  - rewrite Hlog. unfold w1, logged. simpl.
    rewrite <- !(assoc_L (++)). reflexivity.
Qed.

(** A payload that is not valid UTF-8, anywhere in the input, makes the run
    raise [UnicodeDecodeError] (window size and number of shards being
    positive). *)
Theorem run_raises_on_undecodable_payload (dir method : string)
    (window_interval_sec ns : Z) (messages : list (string * Z)) (w : World R) :
  0 < window_interval_sec -> 0 < ns ->
  Exists (fun m => utf8_valid m.1 = false) messages ->
  (run dir method window_interval_sec ns messages w).1 = inl UnicodeDecodeError.
Proof.
  intros Hws Hns Hbad.
  set (self := mkGroupMessagesByFixedWindows window_interval_sec ns).
  set (fn := window.mkFixedWindows (window_interval_sec * 1000000) 0).
  assert (Hmap : forall w0, (mapM (expand_element self fn) messages w0).1
                            = inl UnicodeDecodeError).
  { induction messages as [|[payload t] messages IH]; intros w0.
    - apply Exists_nil in Hbad. destruct Hbad.
    - cbn [mapM]. unfold bind at 1.
      destruct (utf8_valid payload) eqn:Hp.
      + destruct (expand_element_decodable self fn payload t w0 Hns Hp)
          as (k & g & He & _).
        rewrite He. unfold bind at 1.
        apply Exists_cons in Hbad as [Hbad|Hbad]; [simpl in Hbad; congruence|].
        specialize (IH Hbad (mkWorld g (clock w0) (gcs w0) (log w0 ++ [W_; D_; K_]))).
        destruct (mapM _ messages _) as [[e|keyed] w1]; simpl in IH;
          [injection IH as ->; reflexivity | discriminate].
      + rewrite expand_element_steps, Hp. reflexivity. }
  unfold run, bind, lift. rewrite run_constructed by exact Hws.
  fold self fn. unfold run_execute, bind. cbn [group_transform window_fn].
  unfold GroupMessagesByFixedWindows_expand, bind.
  specialize (Hmap w).
  destruct (mapM (expand_element self fn) messages w) as [[e|keyed] w1];
    simpl in Hmap; [injection Hmap as ->; reflexivity | discriminate].
Qed.

End runs.

(** ** Text in, text out *)

Section text.
Context {R : Type} {C : Compression}.

(** A payload of ASCII bytes is decoded to itself. *)
Theorem ascii_payload_decodes (payload : string) :
  is_ascii payload = true -> DecodeMessage_process payload = inr payload.
Proof.
  intros Hascii. unfold DecodeMessage_process, bytes_decode.
  assert (Hvalid : utf8_valid payload = true); [|rewrite Hvalid; reflexivity].
  induction payload as [|c r IH]; [reflexivity|].
  cbn [is_ascii] in Hascii. apply andb_prop in Hascii as [Hc Hr].
  cbn [utf8_valid]. rewrite Hc. apply IH. exact Hr.
Qed.

Lemma utf8_valid_app_bounded (n : nat) (a b : string) :
  (String.length a <= n)%nat -> utf8_valid a = true ->
  utf8_valid (a +:+ b) = utf8_valid b.
Proof.
  revert a. induction n as [|n IH]; intros a Hlen Hv.
  { destruct a; [reflexivity | simpl in Hlen; lia]. }
  destruct a as [|c0 r0]; [reflexivity|].
  rewrite str_app_cons. cbn [utf8_valid] in Hv |- *. simpl in Hlen.
  destruct (byte_val c0 <? 128).
  { apply IH; [lia | exact Hv]. }
  destruct r0 as [|c1 r1]; [discriminate|].
  rewrite str_app_cons. cbn iota. simpl in Hlen.
  destruct (between 194 223 (byte_val c0)).
  { apply andb_prop in Hv as [H1 Hv]. rewrite H1. apply IH; [lia | exact Hv]. }
  destruct r1 as [|c2 r2]; [discriminate|].
  rewrite str_app_cons. cbn iota. simpl in Hlen.
  destruct (between 224 239 (byte_val c0)).
  { apply andb_prop in Hv as [H12 Hv]. rewrite H12. apply IH; [lia | exact Hv]. }
  destruct r2 as [|c3 r3]; [discriminate|].
  rewrite str_app_cons. cbn iota. simpl in Hlen.
  destruct (between 240 244 (byte_val c0)); [|discriminate].
  apply andb_prop in Hv as [H123 Hv]. rewrite H123. apply IH; [lia | exact Hv].
Qed.

Lemma utf8_valid_app (a b : string) :
  utf8_valid a = true -> utf8_valid (a +:+ b) = utf8_valid b.
Proof. apply (utf8_valid_app_bounded (String.length a)). lia. Qed.

(** What the writer stores without compression for decoded messages is
    again valid UTF-8: the object decodes to itself. *)
Theorem uncompressed_object_is_text (dir method : string) (batch : list string)
    (world : World R) :
  method <> "gzip" -> method <> "deflate" -> method <> "bz2" ->
  Forall (fun body => utf8_valid body = true) batch ->
  exists data : string,
    WriteToGCS_payload (mkWriteToGCS dir method) batch world = (inr data, world)
    /\ bytes_decode data = inr data.
Proof.
  intros Hg Hd Hb Hvalid. exists (plain_text batch).
  split; [apply payload_other; assumption|].
  unfold bytes_decode.
  assert (Htext : utf8_valid (plain_text batch) = true);
    [|rewrite Htext; reflexivity].
  induction Hvalid as [|body batch Hbody _ IH]; [reflexivity|].
  change (plain_text (body :: batch)) with ((body +:+ NL) +:+ plain_text batch).
  rewrite str_app_assoc, (utf8_valid_app body) by exact Hbody.
  exact IH.
Qed.

(** Without compression the object of a batch is the object of its first
    part followed by the object of the rest. *)
Theorem uncompressed_objects_concatenate (dir method : string)
    (first rest : list string) (world : World R) :
  method <> "gzip" -> method <> "deflate" -> method <> "bz2" ->
  exists d1 d2 : string,
    WriteToGCS_payload (mkWriteToGCS dir method) first world = (inr d1, world)
    /\ WriteToGCS_payload (mkWriteToGCS dir method) rest world = (inr d2, world)
    /\ WriteToGCS_payload (mkWriteToGCS dir method) (first ++ rest) world
       = (inr (d1 +:+ d2), world)
    /\ String.length d1
       = (length first + list_sum (map String.length first))%nat.
Proof.
  intros Hg Hd Hb. exists (plain_text first), (plain_text rest).
  rewrite !payload_other by assumption.
  split; [reflexivity|]. split; [reflexivity|]. split.
  - f_equal. f_equal. unfold plain_text. rewrite map_app.
    induction (map (fun body => body +:+ NL) first) as [|l ls IH]; [reflexivity|].
    simpl. rewrite IH, str_app_assoc. reflexivity.
  - induction first as [|body first IH]; [reflexivity|].
    change (plain_text (body :: first)) with ((body +:+ NL) +:+ plain_text first).
    rewrite !str_length_app, IH. simpl. lia.
Qed.

End text.

Section lossless.
Context {R : Type} {C : Compression} {Cok : CompressionOk}.

(** Compression loses nothing, for every batch: the bytes stored under any
    method decompress to the very bytes stored without compression; for
    gzip, at a clock that the header of a member can hold. *)
Theorem every_method_stores_the_same_text (dir method : string)
    (batch : list string) (world : World R) :
  stampable method (clock world) ->
  exists data text : string,
    WriteToGCS_payload (mkWriteToGCS dir method) batch world = (inr data, world)
    /\ WriteToGCS_payload (mkWriteToGCS dir "uncompressed") batch world
       = (inr text, world)
    /\ decompress_with method data = Some text.
Proof.
  intros Hclock.
  exists (encoded method (clock world) batch), (plain_text batch).
  split; [apply payload_encoded, Hclock|].
  split; [apply payload_other; discriminate|].
  unfold decompress_with, encoded.
  destruct (String.eqb method "gzip"); [apply gzip_roundtrip|].
  destruct (String.eqb method "deflate"); [apply zlib_roundtrip|].
  destruct (String.eqb method "bz2"); [apply bz2_roundtrip|].
  reflexivity.
Qed.

End lossless.

(** ** Where messages and objects end up *)

Section placement.
Context {R : Type} {RS : RandomSource R} {RSok : RandomSourceOk R}
        {C : Compression}.

(** Every decodable message ends up in exactly one batch of [expand]: the
    batch of the window of its publish time and of a key below
    [num_shards]; the batches hold nothing but payloads of the input, each
    in a window of its own publish time; and nothing is stored meanwhile. *)
Theorem expand_batches_every_message (self : GroupMessagesByFixedWindows)
    (fn : window.FixedWindows) (messages : list (string * Z)) (w : World R) :
  0 < num_shards self ->
  Forall (fun m => utf8_valid m.1 = true) messages ->
  exists (batches : list (Windowed (Z * list string))) (w' : World R),
    GroupMessagesByFixedWindows_expand self fn messages w = (inr batches, w')
    /\ gcs w' = gcs w
    /\ NoDup (map group_key batches)
    /\ total_values batches = length messages
    /\ (forall m, m ∈ messages ->
          exists g, g ∈ batches /\ in_window g = window.assign fn m.2
                    /\ 0 <= (value g).1 < num_shards self
                    /\ m.1 ∈ (value g).2)
    /\ (forall g v, g ∈ batches -> v ∈ (value g).2 ->
          exists t, (v, t) ∈ messages /\ in_window g = window.assign fn t).
Proof.
  intros Hns Hvalid.
  destruct (expand_all_decodable self fn messages w Hns Hvalid)
    as (keyed & g0 & Hexp & Hall).
  eexists (GroupByKey keyed), _. split.
  { unfold GroupMessagesByFixedWindows_expand, bind. rewrite Hexp, step_logged.
    reflexivity. }
  split; [reflexivity|]. split; [apply GroupByKey_keys_NoDup|]. split.
  { rewrite GroupByKey_total. apply (Forall2_length _ _ _ Hall). }
  split.
  - intros m Hm. apply list_elem_of_lookup in Hm as [i Hm].
    destruct (Forall2_lookup_r _ _ _ _ _ Hall Hm) as (e & He & Hw & Hv & Hk).
    destruct (GroupByKey_covers keyed e (list_elem_of_lookup_2 _ _ _ He))
      as (g & Hg & Hgw & Hgk & Hgv).
    exists g. rewrite Hgw, Hgk, <- Hv. repeat split; try assumption; lia.
  - intros g v Hg Hv.
    destruct (GroupByKey_batch keyed g Hg) as [Hvals _].
    rewrite Hvals in Hv. unfold group_of in Hv.
    apply list_elem_of_fmap in Hv as (e & -> & He).
    apply list_elem_of_filter in He as [[Hw _] He].
    apply list_elem_of_lookup in He as [i He].
    destruct (Forall2_lookup_l _ _ _ _ _ Hall He) as ([payload t] & Hm & Hwm & Hvm & _).
    exists t. simpl in Hwm, Hvm. rewrite Hvm, <- Hw, Hwm.
    split; [apply (list_elem_of_lookup_2 _ _ _ Hm) | reflexivity].
Qed.

End placement.

Section confinement.
Context {R : Type} {RS : RandomSource R} {C : Compression}.

Lemma changed_under_refl (dir : string) (w : World R) : changed_under dir w w.
Proof. split; [reflexivity|]. intros p Hp. congruence. Qed.

Lemma changed_under_trans (dir : string) (w1 w2 w3 : World R) :
  changed_under dir w1 w2 -> changed_under dir w2 w3 -> changed_under dir w1 w3.
Proof.
  intros [Hc12 H12] [Hc23 H23]. split; [congruence|].
  intros p Hp.
  destruct (decide (gcs w2 !! p = gcs w1 !! p)) as [Heq|Hne].
  - apply H23. congruence.
  - apply H12. exact Hne.
Qed.

Lemma changed_under_same_store (dir : string) (w w' : World R) :
  clock w' = clock w -> gcs w' = gcs w -> changed_under dir w w'.
Proof. intros Hc Hg. split; [exact Hc|]. intros p Hp. rewrite Hg in Hp. congruence. Qed.

Lemma mapM_changed_under {A B : Type} (dir : string) (f : A -> M R B)
    (l : list A) (w : World R) :
  (forall a w, changed_under dir w (f a w).2) ->
  changed_under dir w (mapM f l w).2.
Proof.
  intros Hf. revert w. induction l as [|a l IH]; intros w.
  - apply changed_under_refl.
  - cbn [mapM]. unfold bind at 1. specialize (Hf a w).
    destruct (f a w) as [[e|b] w1]; [exact Hf|].
    unfold bind at 1. specialize (IH w1).
    destruct (mapM f l w1) as [[e|bs] w2];
      apply (changed_under_trans _ _ _ _ Hf IH).
Qed.

Lemma expand_element_changed_under (dir : string)
    (self : GroupMessagesByFixedWindows) (fn : window.FixedWindows)
    (message : string * Z) (w : World R) :
  changed_under dir w (expand_element self fn message w).2.
Proof.
  destruct message as [payload t]. rewrite expand_element_steps.
  destruct (utf8_valid payload);
    [|apply changed_under_same_store; reflexivity].
  pose proof (random_randint_frame 0 (num_shards self - 1) (logged w [W_; D_; K_]))
    as (Hc & Hg & _).
  destruct (random_randint 0 (num_shards self - 1) (logged w [W_; D_; K_]))
    as [[e|k] w']; apply changed_under_same_store; assumption.
Qed.

Lemma process_changed_under (self : WriteToGCS) (key_value : Z * list string)
    (win : window.IntervalWindow) (w : World R) :
  changed_under (output_gcs_directory self) w
    (WriteToGCS_process self key_value win w).2.
Proof.
  rewrite process_outcome.
  destruct (WriteToGCS_filename self key_value.1 win) as [e|[path m]] eqn:Hname.
  - apply changed_under_refl.
  - apply filename_inr in Hname as (d1 & d2 & _ & _ & ->).
    destruct (String.eqb (compression_method self) "gzip"
              && negb (in_header_range (clock w))).
    all: split; [reflexivity|]; intros p Hp; simpl in Hp.
    all: destruct (decide (p = spec_path (output_gcs_directory self) d1 d2
                                 key_value.1
                                 (extension (compression_method self))))
           as [->|Hne];
      [unfold spec_path; eexists; reflexivity
      |rewrite lookup_insert_ne in Hp by congruence; congruence].
Qed.

(** A run, whether it completes or raises, leaves the clock alone and
    creates or replaces objects under [{output_gcs_directory}/] only. *)
Theorem run_writes_only_under_directory (dir method : string)
    (window_interval_sec ns : Z) (messages : list (string * Z)) (w : World R) :
  let after := (run dir method window_interval_sec ns messages w).2 in
  clock after = clock w
  /\ forall p : string,
       gcs after !! p <> gcs w !! p ->
       exists rest : string, p = dir +:+ "/" +:+ rest.
Proof.
  change (changed_under dir w (run dir method window_interval_sec ns messages w).2).
  unfold run, bind, lift.
  destruct (run_construct dir method window_interval_sec ns) as [e|p] eqn:Hp;
    [apply changed_under_refl|].
  assert (Hdir : output_gcs_directory (writer p) = dir).
  { unfold run_construct in Hp.
    destruct (GroupMessagesByFixedWindows_construct _); [discriminate|].
    injection Hp as <-. reflexivity. }
  unfold run_execute, bind at 1, GroupMessagesByFixedWindows_expand, bind at 1.
  pose proof (mapM_changed_under dir (expand_element (group_transform p) (window_fn p))
                messages w (expand_element_changed_under dir _ _)) as Hexp.
  destruct (mapM (expand_element (group_transform p) (window_fn p)) messages w)
    as [[e|keyed] w1]; [exact Hexp|].
  unfold bind at 1. rewrite step_logged. unfold ret at 1. unfold bind at 1.
  assert (Hstep : changed_under dir w (logged w1 ["Group by key"])).
  { apply (changed_under_trans _ _ _ _ Hexp).
    apply changed_under_same_store; reflexivity. }
  assert (Hwrite : changed_under dir (logged w1 ["Group by key"])
                     (mapM (write_group p) (GroupByKey keyed)
                        (logged w1 ["Group by key"])).2).
  { apply mapM_changed_under. intros g w0. unfold write_group, bind.
    rewrite step_logged.
    apply (changed_under_trans _ _ (logged w0 ["Write to GCS"]));
      [apply changed_under_same_store; reflexivity|].
    rewrite <- Hdir. apply process_changed_under. }
  destruct (mapM (write_group p) (GroupByKey keyed) (logged w1 ["Group by key"]))
    as [[e|done_] w2]; apply (changed_under_trans _ _ _ _ Hstep Hwrite).
Qed.

End confinement.

(** ** The properties above on concrete inputs *)

(** Two timestamps of the first minute of 1970, windows of a minute. *)
Lemma filename_injective_from_30s_witness :
  let self := mkWriteToGCS "gs://b/out" "gzip" in
  let fn := window.mkFixedWindows 60000000 0 in
  let path := "gs://b/out/1970/01/01/logs-00:00-00:01-0.json.gz" in
  30 <= 60
  /\ window.FixedWindows_init 60 = inr fn
  /\ WriteToGCS_filename self 0 (window.assign fn 5000000)
     = inr (path, "application/gzip")
  /\ WriteToGCS_filename self 0 (window.assign fn 59000000)
     = inr (path, "application/gzip")
  /\ window.assign fn 5000000 = window.assign fn 59000000 /\ 0 = 0.
Proof.
  intros self fn path.
  assert (H1 : 30 <= 60) by lia.
  assert (H2 : window.FixedWindows_init 60 = inr fn) by reflexivity.
  assert (H3 : WriteToGCS_filename self 0 (window.assign fn 5000000)
               = inr (path, "application/gzip")) by reflexivity.
  assert (H4 : WriteToGCS_filename self 0 (window.assign fn 59000000)
               = inr (path, "application/gzip")) by reflexivity.
  split; [exact H1|]. split; [exact H2|]. split; [exact H3|]. split; [exact H4|].
  exact (filename_injective_from_30s self 60 fn 5000000 59000000 0 0 path _ _
           H1 H2 H3 H4).
Defined.

(** Windows of ten seconds. *)
Lemma windows_below_30s_collide_witness :
  0 < 10 < 30
  /\ exists fn : window.FixedWindows,
       window.FixedWindows_init 10 = inr fn
       /\ window.assign fn 0 <> window.assign fn (10 * 1000000)
       /\ WriteToGCS_filename (mkWriteToGCS "gs://b/out" "bz2") 4 (window.assign fn 0)
          = WriteToGCS_filename (mkWriteToGCS "gs://b/out" "bz2") 4
              (window.assign fn (10 * 1000000)).
Proof.
  assert (H : 0 < 10 < 30) by lia.
  split; [exact H|].
  exact (windows_below_30s_collide (mkWriteToGCS "gs://b/out" "bz2") 10 4 H).
Defined.

(** Two windows of twenty seconds that share a file name. *)
Lemma shards_never_share_a_path_witness :
  let self := mkWriteToGCS "gs://b/out" "gzip" in
  let path := "gs://b/out/1970/01/01/logs-00:00-00:00-2.json.gz" in
  WriteToGCS_filename self 2 (window.mkIntervalWindow 0 20000000)
  = inr (path, "application/gzip")
  /\ WriteToGCS_filename self 2 (window.mkIntervalWindow 20000000 40000000)
     = inr (path, "application/gzip")
  /\ 2 = 2.
Proof.
  intros self path.
  assert (H1 : WriteToGCS_filename self 2 (window.mkIntervalWindow 0 20000000)
               = inr (path, "application/gzip")) by reflexivity.
  assert (H2 : WriteToGCS_filename self 2 (window.mkIntervalWindow 20000000 40000000)
               = inr (path, "application/gzip")) by reflexivity.
  split; [exact H1|]. split; [exact H2|].
  exact (shards_never_share_a_path self 2 2 _ _ path _ _ H1 H2).
Defined.

(** Five seconds and eighty thousand seconds after the epoch: one day. *)
Lemma date_dir_is_the_utc_day_witness :
  window.to_utc_datetime 5000000 = inr (datetime.mk 1970 1 1 0 0 5 0)
  /\ window.to_utc_datetime 80000000000 = inr (datetime.mk 1970 1 1 22 13 20 0)
  /\ (datetime.strftime_Ymd (datetime.mk 1970 1 1 0 0 5 0)
      = datetime.strftime_Ymd (datetime.mk 1970 1 1 22 13 20 0)
      <-> 5000000 / 86400000000 = 80000000000 / 86400000000).
Proof.
  assert (H1 : window.to_utc_datetime 5000000 = inr (datetime.mk 1970 1 1 0 0 5 0))
    by reflexivity.
  assert (H2 : window.to_utc_datetime 80000000000
               = inr (datetime.mk 1970 1 1 22 13 20 0)) by reflexivity.
  split; [exact H1|]. split; [exact H2|].
  exact (date_dir_is_the_utc_day 5000000 80000000000 _ _ H1 H2).
Defined.

(** The one path a gzip write changes in an empty store. *)
Lemma process_touches_one_path_witness :
  let self := mkWriteToGCS "gs://b/out" "gzip" in
  let w := window.mkIntervalWindow 0 60000000 in
  let path := "gs://b/out/1970/01/01/logs-00:00-00:01-0.json.gz" in
  let after := (WriteToGCS_process (R:=Z) (C:=stored) self (0, ["a"]) w (world0 7 5)).2 in
  gcs after !! path <> gcs (world0 7 5) !! path
  /\ path = path.
Proof.
  intros self w path after.
  assert (H : gcs after !! path <> gcs (world0 7 5) !! path)
    by (vm_compute; discriminate).
  split; [exact H|].
  exact (proj2 (proj2 (proj2
           (@process_touches_one_path Z stored self (0, ["a"]) w (world0 7 5))))
           path path H H).
Defined.

(** A gzip write with the clock one second before 1970, and one seven
    seconds after the last time a gzip header can hold: [struct.error], and
    the object left behind is the four bytes written before the
    modification time. *)
Lemma process_raises_outside_calendar_witness :
  let self := mkWriteToGCS "gs://b/out" "gzip" in
  let w := window.mkIntervalWindow 0 60000000 in
  let left_behind :=
    String (chr 31) (String (chr 139) (String (chr 8) (String (chr 0) ""))) in
  (exists path : string,
     WriteToGCS_process (R:=Z) (C:=stored) self (0, ["a"]) w (world0 7 (-1))
     = (inl struct_error,
        with_object (world0 7 (-1)) path left_behind "application/gzip"))
  /\ (exists path : string,
        WriteToGCS_process (R:=Z) (C:=stored) self (0, ["a"]) w (world0 7 4294967303)
        = (inl struct_error,
           with_object (world0 7 4294967303) path left_behind "application/gzip")).
Proof.
  intros self w left_behind. split.
  - exact (@process_raises_outside_calendar Z stored self (0, ["a"]) w
             (world0 7 (-1))).
  - exact (@process_raises_outside_calendar Z stored self (0, ["a"]) w
             (world0 7 4294967303)).
Defined.

(** Windows of a minute around a timestamp of November 2023. *)
Lemma windows_are_adjacent_witness :
  let fn := window.mkFixedWindows 60000000 0 in
  0 < 60
  /\ window.FixedWindows_init 60 = inr fn
  /\ window.assign fn (window.end_ (window.assign fn 1700000012345678))
     = window.mkIntervalWindow 1700000040000000 1700000100000000.
Proof.
  intros fn.
  assert (H1 : 0 < 60) by lia.
  assert (H2 : window.FixedWindows_init 60 = inr fn) by reflexivity.
  split; [exact H1|]. split; [exact H2|].
  exact (proj1 (proj2 (proj2 (windows_are_adjacent 60 fn 1700000012345678 H1 H2)))).
Defined.

(** Three keyed elements of one window, two of them with key 0. *)
Lemma GroupByKey_partitions_witness :
  let win := window.mkIntervalWindow 0 60000000 in
  let pcoll := [mkWindowed (0, "a") 1 win; mkWindowed (1, "b") 2 win;
                mkWindowed (0, "c") 3 win] in
  let g := mkWindowed (0, ["a"; "c"]) 59999999 win in
  g ∈ GroupByKey pcoll
  /\ (value g).2 = group_of (in_window g) (value g).1 pcoll
  /\ (value g).2 <> [].
Proof.
  intros win pcoll g.
  assert (H : g ∈ GroupByKey pcoll) by (vm_compute; apply list_elem_of_here).
  split; [exact H|].
  exact (proj1 (proj2 (GroupByKey_partitions pcoll)) g H).
Defined.

(** Two messages of November 2023, one shard, windows of a minute. *)
Lemma run_of_well_formed_input_witness :
  let messages := [("a", 1700000012000000); ("b", 1700000075000000)] in
  0 < 60 /\ 0 < 1
  /\ Forall (fun m => utf8_valid m.1 = true) messages
  /\ Forall (fun m => window_in_calendar 60 m.2 = true) messages
  /\ stampable "gzip" (clock (world0 7 5))
  /\ exists (w' : World Z) (writes : nat),
       run (R:=Z) (RS:=lcg) (C:=stored) "gs://b/out" "gzip" 60 1 messages (world0 7 5)
       = (inr tt, w')
       /\ clock w' = 5 /\ (writes <= 2)%nat.
Proof.
  intros messages.
  assert (H1 : 0 < 60) by lia.
  assert (H2 : 0 < 1) by lia.
  assert (H3 : Forall (fun m => utf8_valid m.1 = true) messages)
    by (repeat constructor).
  assert (H4 : Forall (fun m => window_in_calendar 60 m.2 = true) messages)
    by (repeat constructor).
  assert (H5 : stampable "gzip" (clock (world0 7 5)))
    by (intros _; simpl; lia).
  split; [exact H1|]. split; [exact H2|]. split; [exact H3|]. split; [exact H4|].
  split; [exact H5|].
  destruct (@run_of_well_formed_input Z lcg lcg_ok stored "gs://b/out" "gzip" 60 1
              messages (world0 7 5) H1 H2 H3 H4 H5)
    as (w' & writes & Hrun & Hclock & Hwrites & _).
  exists w', writes. split; [exact Hrun|]. split; [exact Hclock | exact Hwrites].
Defined.

(** A lone byte 255 between two decodable payloads. *)
Lemma run_raises_on_undecodable_payload_witness :
  let messages := [("a", 0); (String (chr 255) "", 1000000); ("c", 2000000)] in
  0 < 60 /\ 0 < 5
  /\ Exists (fun m => utf8_valid m.1 = false) messages
  /\ (run (R:=Z) (RS:=lcg) (C:=stored) "gs://b/out" "gzip" 60 5 messages
        (world0 7 5)).1 = inl UnicodeDecodeError.
Proof.
  intros messages.
  assert (H1 : 0 < 60) by lia.
  assert (H2 : 0 < 5) by lia.
  assert (H3 : Exists (fun m => utf8_valid m.1 = false) messages)
    by (apply Exists_cons_tl, Exists_cons_hd; reflexivity).
  split; [exact H1|]. split; [exact H2|]. split; [exact H3|].
  exact (@run_raises_on_undecodable_payload Z lcg lcg_ok stored "gs://b/out" "gzip"
           60 5 messages (world0 7 5) H1 H2 H3).
Defined.

(** A line of JSON. *)
Lemma ascii_payload_decodes_witness :
  is_ascii "{'level': 'info'}" = true
  /\ DecodeMessage_process "{'level': 'info'}" = inr "{'level': 'info'}".
Proof.
  assert (H : is_ascii "{'level': 'info'}" = true) by reflexivity.
  split; [exact H|].
  exact (ascii_payload_decodes "{'level': 'info'}" H).
Defined.

(** Two decoded bodies, one of them with a two-byte character. *)
Lemma uncompressed_object_is_text_witness :
  let batch := ["a"; String (chr 195) (String (chr 169) "")] in
  "uncompressed" <> "gzip" /\ "uncompressed" <> "deflate" /\ "uncompressed" <> "bz2"
  /\ Forall (fun body => utf8_valid body = true) batch
  /\ exists data : string,
       WriteToGCS_payload (R:=Z) (C:=stored) (mkWriteToGCS "gs://b/out" "uncompressed")
         batch (world0 7 5) = (inr data, world0 7 5)
       /\ bytes_decode data = inr data.
Proof.
  intros batch.
  assert (H1 : "uncompressed" <> "gzip") by discriminate.
  assert (H2 : "uncompressed" <> "deflate") by discriminate.
  assert (H3 : "uncompressed" <> "bz2") by discriminate.
  assert (H4 : Forall (fun body => utf8_valid body = true) batch)
    by (repeat constructor).
  split; [exact H1|]. split; [exact H2|]. split; [exact H3|]. split; [exact H4|].
  exact (@uncompressed_object_is_text Z stored "gs://b/out" "uncompressed" batch
           (world0 7 5) H1 H2 H3 H4).
Defined.

(** A batch of three records cut after the first. *)
Lemma uncompressed_objects_concatenate_witness :
  "uncompressed" <> "gzip" /\ "uncompressed" <> "deflate" /\ "uncompressed" <> "bz2"
  /\ exists d1 d2 : string,
       WriteToGCS_payload (R:=Z) (C:=stored) (mkWriteToGCS "gs://b/out" "uncompressed")
         ["a"] (world0 7 5) = (inr d1, world0 7 5)
       /\ WriteToGCS_payload (R:=Z) (C:=stored) (mkWriteToGCS "gs://b/out" "uncompressed")
            ["b"; "c"] (world0 7 5) = (inr d2, world0 7 5)
       /\ WriteToGCS_payload (R:=Z) (C:=stored) (mkWriteToGCS "gs://b/out" "uncompressed")
            (["a"] ++ ["b"; "c"]) (world0 7 5) = (inr (d1 +:+ d2), world0 7 5).
Proof.
  assert (H1 : "uncompressed" <> "gzip") by discriminate.
  assert (H2 : "uncompressed" <> "deflate") by discriminate.
  assert (H3 : "uncompressed" <> "bz2") by discriminate.
  split; [exact H1|]. split; [exact H2|]. split; [exact H3|].
  destruct (@uncompressed_objects_concatenate Z stored "gs://b/out" "uncompressed"
              ["a"] ["b"; "c"] (world0 7 5) H1 H2 H3)
    as (d1 & d2 & Ha & Hb & Hab & _).
  exists d1, d2. split; [exact Ha|]. split; [exact Hb | exact Hab].
Defined.

(** A batch with a line feed inside a body, compressed with gzip in
    November 2023. *)
Lemma every_method_stores_the_same_text_witness :
  let batch := ["a" +:+ NL +:+ "b"; "c"] in
  let world := world0 7 1700000100 in
  stampable "gzip" (clock world)
  /\ exists data text : string,
       WriteToGCS_payload (R:=Z) (C:=stored) (mkWriteToGCS "gs://b/out" "gzip")
         batch world = (inr data, world)
       /\ WriteToGCS_payload (R:=Z) (C:=stored) (mkWriteToGCS "gs://b/out" "uncompressed")
            batch world = (inr text, world)
       /\ decompress_with (C:=stored) "gzip" data = Some text.
Proof.
  intros batch world.
  assert (Hclock : stampable "gzip" (clock world)) by (intros _; simpl; lia).
  split; [exact Hclock|].
  exact (@every_method_stores_the_same_text Z stored stored_ok "gs://b/out" "gzip"
           batch world Hclock).
Defined.

(** Two messages in neighbouring windows, five shards. *)
Lemma expand_batches_every_message_witness :
  let self := mkGroupMessagesByFixedWindows 60 5 in
  let fn := window.mkFixedWindows 60000000 0 in
  let messages := [("a", 1000000); ("b", 61000000)] in
  0 < num_shards self
  /\ Forall (fun m => utf8_valid m.1 = true) messages
  /\ exists (batches : list (Windowed (Z * list string))) (w' : World Z),
       GroupMessagesByFixedWindows_expand (R:=Z) (RS:=lcg) self fn messages (world0 7 5)
       = (inr batches, w')
       /\ total_values batches = 2%nat.
Proof.
  intros self fn messages.
  assert (H1 : 0 < num_shards self) by (simpl; lia).
  assert (H2 : Forall (fun m => utf8_valid m.1 = true) messages)
    by (repeat constructor).
  split; [exact H1|]. split; [exact H2|].
  destruct (@expand_batches_every_message Z lcg lcg_ok self fn messages
              (world0 7 5) H1 H2)
    as (batches & w' & Hexp & _ & _ & Htotal & _).
  exists batches, w'. split; [exact Hexp | exact Htotal].
Defined.

(** The object a run of one message creates lies under the directory. *)
Lemma run_writes_only_under_directory_witness :
  let path := "gs://b/out/1970/01/01/logs-00:00-00:01-0.json" in
  let after := (run (R:=Z) (RS:=lcg) (C:=stored) "gs://b/out" "uncompressed" 60 1
                  [("a", 0)] (world0 7 5)).2 in
  gcs after !! path <> gcs (world0 7 5) !! path
  /\ exists rest : string, path = "gs://b/out" +:+ "/" +:+ rest.
Proof.
  intros path after.
  assert (H : gcs after !! path <> gcs (world0 7 5) !! path)
    by (vm_compute; discriminate).
  split; [exact H|].
  exact (proj2 (@run_writes_only_under_directory Z lcg stored "gs://b/out"
                  "uncompressed" 60 1 [("a", 0)] (world0 7 5)) path H).
Defined.

(** ** Bytes the decoder refuses, and the type the writer never stores *)

Section refusals.

Lemma forbidden_byte_value (c : ascii) :
  never_in_utf8 c = true ->
  byte_val c = 192 \/ byte_val c = 193 \/ 245 <= byte_val c.
Proof.
  unfold never_in_utf8. generalize (byte_val c). intros b Hb.
  apply orb_prop in Hb as [Hb|Hb]; [apply orb_prop in Hb as [Hb|Hb]|].
  - left. apply Z.eqb_eq. exact Hb.
  - right. left. apply Z.eqb_eq. exact Hb.
  - right. right. apply Z.leb_le. exact Hb.
Qed.

Lemma forbidden_not_between (c : ascii) (lo hi : Z) :
  hi <= 191 \/ (194 <= lo /\ hi <= 244) ->
  never_in_utf8 c = true -> between lo hi (byte_val c) = false.
Proof.
  intros Hrange Hc. apply forbidden_byte_value in Hc.
  unfold between. generalize dependent (byte_val c). intros b Hb.
  apply andb_false_iff.
  destruct (Z.leb_spec lo b); [right|left; reflexivity].
  apply Z.leb_gt. lia.
Qed.

Lemma forbidden_not_ascii (c : ascii) :
  never_in_utf8 c = true -> (byte_val c <? 128) = false.
Proof.
  intros Hc. apply forbidden_byte_value in Hc. apply Z.ltb_ge. lia.
Qed.

Lemma never_in_utf8_bounded (n : nat) (s : string) :
  (String.length s <= n)%nat -> has_byte never_in_utf8 s = true ->
  utf8_valid s = false.
Proof.
  revert s. induction n as [|n IH]; intros s Hlen Hbad.
  { destruct s; [discriminate | simpl in Hlen; lia]. }
  destruct s as [|c0 r0]; [discriminate|].
  cbn [utf8_valid]. cbn [has_byte] in Hbad. cbn [String.length] in Hlen.
  destruct (never_in_utf8 c0) eqn:Hc0.
  { rewrite (forbidden_not_ascii c0 Hc0).
    destruct r0 as [|c1 r1]; [reflexivity|].
    rewrite (forbidden_not_between c0 194 223) by (lia || exact Hc0).
    destruct r1 as [|c2 r2]; [reflexivity|].
    rewrite (forbidden_not_between c0 224 239) by (lia || exact Hc0).
    destruct r2 as [|c3 r3]; [reflexivity|].
    rewrite (forbidden_not_between c0 240 244) by (lia || exact Hc0).
    reflexivity. }
  cbn [orb] in Hbad.
  destruct (byte_val c0 <? 128).
  { apply IH; [lia | exact Hbad]. }
  destruct r0 as [|c1 r1]; [reflexivity|].
  cbn [has_byte] in Hbad. cbn [String.length] in Hlen.
  destruct (never_in_utf8 c1) eqn:Hc1.
  { unfold continuation.
    rewrite (forbidden_not_between c1 128 191) by (lia || exact Hc1).
    rewrite (forbidden_not_between c1 160 191) by (lia || exact Hc1).
    rewrite (forbidden_not_between c1 128 159) by (lia || exact Hc1).
    rewrite (forbidden_not_between c1 144 191) by (lia || exact Hc1).
    rewrite (forbidden_not_between c1 128 143) by (lia || exact Hc1).
    destruct (between 194 223 (byte_val c0)); [reflexivity|].
    destruct r1 as [|c2 r2]; [reflexivity|].
    destruct (between 224 239 (byte_val c0)).
    { destruct (byte_val c0 =? 224); [reflexivity|].
      destruct (byte_val c0 =? 237); reflexivity. }
    destruct r2 as [|c3 r3]; [reflexivity|].
    destruct (between 240 244 (byte_val c0)); [|reflexivity].
    destruct (byte_val c0 =? 240); [reflexivity|].
    destruct (byte_val c0 =? 244); reflexivity. }
  cbn [orb] in Hbad.
  destruct (between 194 223 (byte_val c0)).
  { rewrite (IH r1) by (lia || exact Hbad). apply andb_false_r. }
  destruct r1 as [|c2 r2]; [reflexivity|].
  cbn [has_byte] in Hbad. cbn [String.length] in Hlen.
  destruct (never_in_utf8 c2) eqn:Hc2.
  { unfold continuation at 2 4.
    rewrite (forbidden_not_between c2 128 191) by (lia || exact Hc2).
    rewrite !andb_false_r. cbn [andb].
    destruct (between 224 239 (byte_val c0)); [reflexivity|].
    destruct r2 as [|c3 r3]; [reflexivity|].
    destruct (between 240 244 (byte_val c0)); reflexivity. }
  cbn [orb] in Hbad.
  destruct (between 224 239 (byte_val c0)).
  { rewrite (IH r2) by (lia || exact Hbad). apply andb_false_r. }
  destruct r2 as [|c3 r3]; [reflexivity|].
  cbn [has_byte] in Hbad. cbn [String.length] in Hlen.
  destruct (between 240 244 (byte_val c0)); [|reflexivity].
  destruct (never_in_utf8 c3) eqn:Hc3.
  { unfold continuation at 3.
    rewrite (forbidden_not_between c3 128 191) by (lia || exact Hc3).
    rewrite !andb_false_r. reflexivity. }
  cbn [orb] in Hbad.
  rewrite (IH r3) by (lia || exact Hbad). apply andb_false_r.
Qed.

(** A payload that contains one of the bytes C0, C1, F5 ... FF, at any
    position, is refused by the decoder. *)
Theorem payload_with_forbidden_byte_is_refused (payload : string) :
  has_byte never_in_utf8 payload = true ->
  DecodeMessage_process payload = inl UnicodeDecodeError.
Proof.
  intros Hbad. unfold DecodeMessage_process, bytes_decode.
  rewrite (never_in_utf8_bounded (String.length payload)); [reflexivity | lia | exact Hbad].
Qed.

(** The MIME type set first, [application/octet-stream], is never the one
    of a stored object: whatever the method, the type is one of the four of
    the dispatch, and it is [application/json] unless the method is one of
    the three compressed ones. *)
Theorem default_mime_type_is_never_stored (self : WriteToGCS) (shard_id : Z)
    (w : window.IntervalWindow) (path mime_type : string) :
  WriteToGCS_filename self shard_id w = inr (path, mime_type) ->
  mime_type <> "application/octet-stream"
  /\ In mime_type ["application/gzip"; "application/zlib";
                   "application/x-bzip2"; "application/json"]
  /\ (mime_type = "application/json" <->
      compression_method self <> "gzip" /\ compression_method self <> "deflate"
      /\ compression_method self <> "bz2").
Proof.
  intros Hname.
  destruct (window.to_utc_datetime (window.start w)) as [e|d1] eqn:H1.
  { unfold WriteToGCS_filename in Hname. rewrite H1 in Hname. discriminate. }
  destruct (window.to_utc_datetime (window.end_ w)) as [e|d2] eqn:H2.
  { unfold WriteToGCS_filename in Hname. rewrite H1, H2 in Hname. discriminate. }
  rewrite (filename_representable self shard_id w d1 d2 H1 H2) in Hname.
  injection Hname as _ <-. unfold mime.
  destruct (String.eqb_spec (compression_method self) "gzip") as [Hg|Hg].
  { split; [discriminate|]. split; [simpl; tauto|]. split; [discriminate | tauto]. }
  destruct (String.eqb_spec (compression_method self) "deflate") as [Hd|Hd].
  { split; [discriminate|]. split; [simpl; tauto|]. split; [discriminate | tauto]. }
  destruct (String.eqb_spec (compression_method self) "bz2") as [Hb|Hb].
  { split; [discriminate|]. split; [simpl; tauto|]. split; [discriminate | tauto]. }
  split; [discriminate|]. split; [simpl; tauto|]. split; [intros _; tauto | reflexivity].
Qed.

End refusals.

(** A byte F5 after two letters. *)
Lemma payload_with_forbidden_byte_is_refused_witness :
  has_byte never_in_utf8 ("ab" +:+ String (chr 245) "c") = true
  /\ DecodeMessage_process ("ab" +:+ String (chr 245) "c") = inl UnicodeDecodeError.
Proof.
  assert (H : has_byte never_in_utf8 ("ab" +:+ String (chr 245) "c") = true)
    by reflexivity.
  split; [exact H|].
  exact (payload_with_forbidden_byte_is_refused _ H).
Defined.

(** The type of a deflate object. *)
Lemma default_mime_type_is_never_stored_witness :
  let self := mkWriteToGCS "gs://b/out" "deflate" in
  let w := window.mkIntervalWindow 0 60000000 in
  WriteToGCS_filename self 0 w
  = inr ("gs://b/out/1970/01/01/logs-00:00-00:01-0.json.zlib", "application/zlib")
  /\ "application/zlib" <> "application/octet-stream".
Proof.
  intros self w.
  assert (H : WriteToGCS_filename self 0 w
              = inr ("gs://b/out/1970/01/01/logs-00:00-00:01-0.json.zlib",
                     "application/zlib")) by reflexivity.
  split; [exact H|].
  exact (proj1 (default_mime_type_is_never_stored self 0 w _ _ H)).
Defined.
